(** * CV / job-description similarity scorer

    A shallow embedding of [app/utils/evaluation/cv_matcher.py],
    [language/supported_languages.py], the file helpers the
    [/evaluate_cv_match] endpoint of [app/routes.py] goes through, and of
    that endpoint itself.

    Conventions.
    - A Python [str] is a list of Unicode code points ([N]).
    - A raised exception is a value of [exn]: its class and [str(e)].
    - Code that touches the NLTK data directory, the embedding model or
      the network runs in the monad [M], which threads the state of the
      data directory and records the calls made to the outside.
    - Floating-point values are idealised as real numbers. *)

From Stdlib Require Import Ascii String.
From Stdlib Require Import List NArith ZArith Bool Arith Lia.
From Stdlib Require Import Reals Lra.
Import ListNotations.

(** ** Python strings *)

Module Py.

Definition char := N.
Definition str := list char.

(** An ASCII literal of the source as a [str]. *)
Definition py (s : string) : str :=
  map N_of_ascii (list_ascii_of_string s).

Fixpoint str_eqb (a b : str) : bool :=
  match a, b with
  | [], [] => true
  | x :: a', y :: b' => N.eqb x y && str_eqb a' b'
  | _, _ => false
  end.

(** [str.isspace] on one code point: the table of CPython's
    [_PyUnicode_IsWhitespace]. *)
Definition isspace (c : char) : bool :=
  ((9 <=? c) && (c <=? 13) || (28 <=? c) && (c <=? 32)
   || (c =? 133) || (c =? 160) || (c =? 5760)
   || (8192 <=? c) && (c <=? 8202)
   || (c =? 8232) || (c =? 8233) || (c =? 8239) || (c =? 8287)
   || (c =? 12288))%N.

(** [s.split()] without arguments: scan left to right, [cur] is the
    token being read; runs of whitespace separate tokens and produce no
    empty token. *)
Fixpoint split_scan (cur : str) (s : str) : list str :=
  match s with
  | [] => match cur with [] => [] | _ => [cur] end
  | c :: s' =>
      if isspace c
      then match cur with
           | [] => split_scan [] s'
           | _ => cur :: split_scan [] s'
           end
      else split_scan (cur ++ [c]) s'
  end.

Definition split (s : str) : list str := split_scan [] s.

(** [sep.join(parts)] *)
Fixpoint join (sep : str) (parts : list str) : str :=
  match parts with
  | [] => []
  | [p] => p
  | p :: rest => p ++ sep ++ join sep rest
  end.

(** [s.lstrip()], [s.rstrip()] and [s.strip()] without arguments. *)
Fixpoint lstrip (s : str) : str :=
  match s with
  | [] => []
  | c :: s' => if isspace c then lstrip s' else s
  end.

Definition rstrip (s : str) : str := rev (lstrip (rev s)).

Definition strip (s : str) : str := rstrip (lstrip s).

(** Truth value of a [str]: the empty string is false. *)
Definition truthy (s : str) : bool :=
  match s with [] => false | _ => true end.

(** [x in collection] for a list or a set of strings. *)
Definition contains (l : list str) (x : str) : bool :=
  existsb (str_eqb x) l.

(** [s.startswith(p)] *)
Fixpoint startswith (s p : str) : bool :=
  match p, s with
  | [], _ => true
  | x :: p', y :: s' => N.eqb x y && startswith s' p'
  | _ :: _, [] => false
  end.

(** Lowercasing of the ASCII letters; on ASCII-only strings this is
    [str.lower]. *)
Definition ascii_lower_char (c : char) : char :=
  if ((65 <=? c) && (c <=? 90))%N then (c + 32)%N else c.

Definition ascii_lower (s : str) : str := map ascii_lower_char s.

End Py.

Import Py.

(** ** What the spec calls tokens

    The spec's words: "split on whitespace into tokens".  A text is a
    sequence of maximal whitespace-free runs separated (and possibly
    surrounded) by whitespace; the tokens are those runs, in order. *)

Definition blank (s : str) : Prop := Forall (fun c => isspace c = true) s.
Definition solid (s : str) : Prop := Forall (fun c => isspace c = false) s.

Definition starts_blank (s : str) : Prop :=
  match s with
  | [] => True
  | c :: _ => isspace c = true
  end.

Inductive tokenization : str -> list str -> Prop :=
| tok_done : forall ws, blank ws -> tokenization ws []
| tok_word : forall ws t rest ts,
    blank ws -> t <> [] -> solid t -> starts_blank rest ->
    tokenization rest ts ->
    tokenization (ws ++ t ++ rest) (t :: ts).

(** ** Exceptions *)

Inductive exc_class :=
| ValueError
| LookupError
| Exception
| OpenAIError
| OtherError (name : str).

(** A raised exception: its class and its message, [str(e)]. *)
Record exn := mk_exn { exn_class : exc_class; exn_msg : str }.

Definition is_LookupError (e : exn) : bool :=
  match exn_class e with LookupError => true | _ => false end.

(** Every class above derives from [Exception]. *)
Definition is_Exception (e : exn) : bool := true.

(** ** The outside world

    [stopwords] is NLTK's lazily loaded corpus reader: reading it raises
    [LookupError] while the corpus is not in the data directory. *)

Record Corpus := mk_corpus {
  fileids : list str;
  words : str -> list str
}.

Record World := mk_world { nltk_data : option Corpus }.

Inductive event :=
| Download (package : str)
| EmbedCall (texts : list str)
| ChatCompletion (model system user : str).

Definition M (A : Type) : Type := World -> (exn + A) * World * list event.

Definition ret {A} (a : A) : M A := fun w => (inr a, w, []).

Definition raise {A} (e : exn) : M A := fun w => (inl e, w, []).

Definition bind {A B} (m : M A) (k : A -> M B) : M B :=
  fun w =>
    match m w with
    | (inl e, w1, t1) => (inl e, w1, t1)
    | (inr a, w1, t1) =>
        match k a w1 with
        | (r, w2, t2) => (r, w2, t1 ++ t2)
        end
    end.

(** [try: m  except <classes> as e: h e] *)
Definition try_except {A} (m : M A) (catches : exn -> bool)
    (h : exn -> M A) : M A :=
  fun w =>
    match m w with
    | (inl e, w1, t1) =>
        if catches e
        then match h e w1 with
             | (r, w2, t2) => (r, w2, t1 ++ t2)
             end
        else (inl e, w1, t1)
    | (inr a, w1, t1) => (inr a, w1, t1)
    end.

Definition emit (ev : event) : M unit := fun w => (inr tt, w, [ev]).

Definition lift {A} (r : exn + A) : M A := fun w => (r, w, []).

Notation "x <- m ;; k" := (bind m (fun x => k))
  (at level 61, m at next level, right associativity).
Notation "m ;;; k" := (bind m (fun _ => k))
  (at level 61, right associativity).

Definition result {A} (o : (exn + A) * World * list event) : exn + A :=
  fst (fst o).
Definition world_after {A} (o : (exn + A) * World * list event) : World :=
  snd (fst o).
Definition trace {A} (o : (exn + A) * World * list event) : list event :=
  snd o.

(** ** language/supported_languages.py *)

Definition SUPPORTED_LANGUAGES : list (str * str) :=
  [ (py "en", py "English");
    (py "tr", py "Turkish");
    (py "de", py "German");
    (py "fr", py "French");
    (py "es", py "Spanish");
    (py "it", py "Italian");
    (py "nl", py "Dutch") ].

(** [key in d] for a dict *)
Definition dict_in (d : list (str * str)) (key : str) : bool :=
  contains (map fst d) key.

(** [d.get(key, None)] *)
Fixpoint dict_get (d : list (str * str)) (key : str) : option str :=
  match d with
  | [] => None
  | (k, v) :: d' => if str_eqb key k then Some v else dict_get d' key
  end.

Definition get_language_name (language_code : str) : option str :=
  dict_get SUPPORTED_LANGUAGES language_code.

(** ** sklearn.metrics.pairwise.cosine_similarity on two single rows *)

Definition vector := list R.

Fixpoint dot (x y : vector) : R :=
  match x, y with
  | a :: x', b :: y' => a * b + dot x' y'
  | _, _ => 0
  end%R.

Definition row_norm (x : vector) : R := sqrt (dot x x).

(** [_handle_zeros_in_scale]: a zero norm is replaced by 1, so a zero
    row stays zero and nothing is divided by zero.  (Later releases of the
    library also replace the norms below ten machine epsilons; nothing
    stated about the claims below depends on the difference.) *)
Definition handle_zeros_in_scale (n : R) : R :=
  if Req_dec_T n 0 then 1%R else n.

Definition normalize (x : vector) : vector :=
  map (fun a => (a / handle_zeros_in_scale (row_norm x))%R) x.

(** ** app/utils/evaluation/cv_matcher.py *)

Section Scorer.

(** [str.lower], Unicode case mapping. *)
Variable lower : str -> str.

(** What the data directory holds after the [nltk.download('stopwords')]
    of a run ([get_stopwords] calls it at most once in a run): [None]
    when the download fails (it then returns [False], it does not raise).
    Two runs may meet different outcomes; statements about two runs take
    one such value for each. *)
Variable remote : option Corpus.

(** The text of NLTK's "Resource stopwords not found" error. *)
Variable lookup_error_msg : str.

(** [embed([text]).numpy()]: the one row computed for the one text, or
    the exception the model raised. *)
Variable embed : str -> exn + vector.

(** The text of sklearn's [ValueError] for rows it cannot compare, from
    the two row lengths. *)
Variable shape_error_msg : nat -> nat -> str.

(** [cosine_similarity(X, Y)[0][0]] for two arrays of one row each:
    the rows are validated, normalised and multiplied. *)
Definition cosine_similarity (x y : vector) : exn + R :=
  if (length x =? 0)%nat || (length y =? 0)%nat
     || negb (length x =? length y)%nat
  then inl (mk_exn ValueError (shape_error_msg (length x) (length y)))
  else inr (dot (normalize x) (normalize y)).

(** [stopwords.fileids()] and [stopwords.words(language)] *)
Definition stopwords_fileids : M (list str) :=
  fun w =>
    match nltk_data w with
    | Some c => (inr (fileids c), w, [])
    | None => (inl (mk_exn LookupError lookup_error_msg), w, [])
    end.

Definition stopwords_words (language : str) : M (list str) :=
  fun w =>
    match nltk_data w with
    | Some c => (inr (words c language), w, [])
    | None => (inl (mk_exn LookupError lookup_error_msg), w, [])
    end.

(** [nltk.download(package, quiet=True)] *)
Definition nltk_download (package : str) : M unit :=
  fun w =>
    (inr tt,
     match remote with Some c => mk_world (Some c) | None => w end,
     [Download package]).

(** The two lines that occur twice in [get_stopwords]:
    [if language in stopwords.fileids():
         return set(stopwords.words(language))].
    [Some s] is "returned [s]", [None] is "fell through".  A Python set
    is used for membership only and is modelled by the list of its
    elements. *)
Definition stopwords_if_listed (language : str) : M (option (list str)) :=
  ids <- stopwords_fileids ;;
  if contains ids language
  then ws <- stopwords_words language ;; ret (Some ws)
  else ret None.

Definition get_stopwords (language : str) : M (list str) :=
  r <- try_except (stopwords_if_listed language) is_LookupError
         (fun _ => nltk_download (py "stopwords") ;;;
                   stopwords_if_listed language) ;;
  match r with
  | Some s => ret s
  | None => ret []
  end.

Definition preprocess_text (text language : str) : M str :=
  stop_words <- get_stopwords language ;;
  let words := split text in
  let filtered_words :=
    filter (fun word => negb (contains stop_words (lower word))) words in
  ret (join (py " ") filtered_words).

Definition embed_call (text : str) : M vector :=
  emit (EmbedCall [text]) ;;; lift (embed text).

Definition empty_text_error : exn :=
  mk_exn ValueError (py "Job description and CV text cannot be empty.").

Definition unsupported_language_error (language : str) : exn :=
  mk_exn ValueError (py "Unsupported language: " ++ language).

Definition similarity_error (e : exn) : exn :=
  mk_exn Exception (py "Error computing similarity score: " ++ exn_msg e).

Definition compute_similarity_score
    (job_description cv_text language : str) : M R :=
  if negb (truthy (strip job_description)) || negb (truthy (strip cv_text))
  then raise empty_text_error
  else if negb (dict_in SUPPORTED_LANGUAGES language)
  then raise (unsupported_language_error language)
  else
    try_except
      (job_clean <- preprocess_text job_description language ;;
       cv_clean <- preprocess_text cv_text language ;;
       job_vector <- embed_call job_clean ;;
       cv_vector <- embed_call cv_clean ;;
       similarity <- lift (cosine_similarity job_vector cv_vector) ;;
       ret similarity)
      is_Exception
      (fun e => raise (similarity_error e)).

End Scorer.

(** ** os.path (POSIX) *)

Definition SEP : char := 47%N.
Definition EXTSEP : char := 46%N.

(** [s.rfind(c)] for one character: the last index, or -1. *)
Fixpoint rfind_from (i : Z) (c : char) (s : str) : Z :=
  match s with
  | [] => (-1)%Z
  | x :: s' =>
      let r := rfind_from (i + 1) c s' in
      if (0 <=? r)%Z then r else if N.eqb x c then i else (-1)%Z
  end.

Definition rfind (c : char) (s : str) : Z := rfind_from 0 c s.

(** [p[a:b]] for [0 <= a] *)
Definition slice (p : str) (a b : Z) : str :=
  firstn (Z.to_nat (b - a)) (skipn (Z.to_nat a) p).

(** [os.path.splitext(p)]: the extension starts at the last dot of the
    last component, unless that component has only dots before it. *)
Definition splitext (p : str) : str * str :=
  let sepIndex := rfind SEP p in
  let dotIndex := rfind EXTSEP p in
  if (sepIndex <? dotIndex)%Z
     && existsb (fun c => negb (N.eqb c EXTSEP))
          (slice p (sepIndex + 1) dotIndex)
  then (firstn (Z.to_nat dotIndex) p, skipn (Z.to_nat dotIndex) p)
  else (p, []).

(** [os.path.join(a, b)] *)
Definition path_join (a b : str) : str :=
  if startswith b [SEP] then b
  else if negb (truthy a) || startswith (rev a) [SEP] then a ++ b
  else a ++ [SEP] ++ b.

(** ** The upload and the HTTP messages *)

Record FileStorage := mk_file { filename : str; stream : list N }.

Record Request := mk_request {
  form : list (str * str);
  files : list (str * FileStorage)
}.

Fixpoint files_get (l : list (str * FileStorage)) (key : str)
    : option FileStorage :=
  match l with
  | [] => None
  | (k, v) :: l' => if str_eqb key k then Some v else files_get l' key
  end.

(** [jsonify(...)] of the two shapes the endpoint answers with. *)
Inductive json_body :=
| ErrorBody (error : str)
| EvaluationBody (similarity_score : R) (evaluation : str).

Definition Response : Type := json_body * nat.

(** ** The file helpers and [/evaluate_cv_match] *)

Section Endpoint.

Variable lower : str -> str.
Variable remote : option Corpus.
Variable lookup_error_msg : str.
Variable embed : str -> exn + vector.
Variable shape_error_msg : nat -> nat -> str.

(** The file system, the parsers and the services behind the endpoint. *)
Variable TEMP_DIR : str.
Variable path_exists : str -> bool.
Variable makedirs : str -> exn + unit.
Variable mkdtemp : str -> exn + str.
Variable uuid4 : str.
Variable file_save : FileStorage -> str -> exn + unit.
(** [page.extract_text()] of every page of the PDF *)
Variable pdf_pages : str -> exn + list (option str).
(** [paragraph.text] of every paragraph of the document *)
Variable docx_paragraphs : str -> exn + list str.
Variable read_utf8 : str -> exn + str.
(** [openai.ChatCompletion.create(...)['choices'][0]['message']['content']]
    from the system and the user message *)
Variable chat_completion : str -> str -> exn + str.
(** the builtin [round(x, ndigits)] *)
Variable round : R -> nat -> R.

(** app/utils/file/file_management.py *)

Definition ensure_directory_exists (directory : str) : M unit :=
  if negb (path_exists directory) then lift (makedirs directory)
  else ret tt.

Definition get_file_suffix (name : str) : str := snd (splitext name).

Definition save_temporary_file (file : FileStorage) (temp_dir : str)
    : M str :=
  ensure_directory_exists temp_dir ;;;
  let extension := get_file_suffix (filename file) in
  let unique_filename := uuid4 ++ extension in
  let save_path := path_join temp_dir unique_filename in
  lift (file_save file save_path) ;;;
  ret save_path.

(** app/utils/document/document_extraction.py *)

Definition extract_text_from_pdf (pdf_path : str) : M str :=
  pages <- lift (pdf_pages pdf_path) ;;
  ret (join (py (String "010" EmptyString))
         (flat_map (fun page =>
                      match page with
                      | Some t => if truthy t then [t] else []
                      | None => []
                      end) pages)).

Definition extract_text_from_docx (docx_path : str) : M str :=
  paragraphs <- lift (docx_paragraphs docx_path) ;;
  ret (join (py (String "010" EmptyString)) paragraphs).

Definition extract_text_from_txt (txt_path : str) : M str :=
  lift (read_utf8 txt_path).

Definition extract_text (file_path : str) : M str :=
  let file_extension := lower (get_file_suffix file_path) in
  if str_eqb file_extension (py ".pdf") then extract_text_from_pdf file_path
  else if str_eqb file_extension (py ".docx")
  then extract_text_from_docx file_path
  else if str_eqb file_extension (py ".txt")
  then extract_text_from_txt file_path
  else raise (mk_exn ValueError (py "Unsupported file format.")).

(** [evaluate_cv_with_openai] of cv_matcher.py *)

Definition NL : str := py (String "010" EmptyString).

Definition evaluation_prompt (job_description cv_text language : str) : str :=
  py "As an HR manager, you are tasked with evaluating how well a candidate's "
  ++ py "CV matches the job description provided. Conduct a thorough analysis and "
  ++ py "provide feedback on:" ++ NL ++ NL
  ++ py "1. Key strengths that align well with the job requirements." ++ NL
  ++ py "2. Areas where the candidate may lack the necessary qualifications or "
  ++ py "experience." ++ NL
  ++ py "3. A final recommendation on the candidate's suitability for the position."
  ++ NL ++ NL
  ++ py "Please deliver your evaluation in " ++ language ++ py "." ++ NL ++ NL
  ++ py "Job Description:" ++ NL ++ job_description ++ NL ++ NL
  ++ py "CV Content:" ++ NL ++ cv_text.

Definition is_OpenAIError (e : exn) : bool :=
  match exn_class e with OpenAIError => true | _ => false end.

Definition evaluate_cv_with_openai (job_description cv_text language : str)
    : M str :=
  let prompt := evaluation_prompt job_description cv_text language in
  let system :=
    py "Provide a detailed professional evaluation in " ++ language ++ py "." in
  try_except
    (emit (ChatCompletion (py "gpt-4-turbo") system prompt) ;;;
     content <- lift (chat_completion system prompt) ;;
     let evaluation := strip content in
     ret evaluation)
    is_OpenAIError
    (fun e => raise (mk_exn Exception (py "OpenAI API Error: " ++ exn_msg e))).

(** app/routes.py *)

Definition missing_input_response : Response :=
  (ErrorBody (py "CV file and job description are required."), 400).

Definition unsupported_language_response : Response :=
  (ErrorBody (py "Unsupported language. Choose from "
              ++ py "['en', 'tr', 'de', 'fr', 'es', 'it', 'nl']."), 400).

Definition internal_error_response : Response :=
  (ErrorBody (py "Internal server error."), 500).

(** [request.form.get(key)] and [request.form.get(key, default)] *)
Definition form_get (request : Request) (key : str) : option str :=
  dict_get (form request) key.

Definition form_get_default (request : Request) (key default : str) : str :=
  match dict_get (form request) key with
  | Some v => v
  | None => default
  end.

(** Truth value of an uploaded file: [bool(file.filename)]; of an
    optional string: [None] and [''] are false. *)
Definition file_truthy (f : option FileStorage) : bool :=
  match f with
  | Some file => truthy (filename file)
  | None => false
  end.

Definition opt_truthy (s : option str) : bool :=
  match s with
  | Some v => truthy v
  | None => false
  end.

(** The body of [evaluate_cv_match_endpoint] (the function the route
    decorators wrap).  Its logging calls are left out. *)
Definition evaluate_cv_match_endpoint (request : Request) : M Response :=
  try_except
    (let job_description := form_get request (py "job_description") in
     let language := lower (form_get_default request (py "language") (py "en")) in
     let cv_file := files_get (files request) (py "cv_file") in
     match cv_file, job_description with
     | Some cv_file', Some job_description' =>
         if negb (file_truthy cv_file) || negb (opt_truthy job_description)
         then ret missing_input_response
         else
           ensure_directory_exists TEMP_DIR ;;;
           temp_dir <- lift (mkdtemp TEMP_DIR) ;;
           temp_file_path <- save_temporary_file cv_file' temp_dir ;;
           cv_text <- extract_text temp_file_path ;;
           similarity_score <-
             compute_similarity_score lower remote lookup_error_msg embed
               shape_error_msg job_description' cv_text language ;;
           match get_language_name language with
           | Some language_name =>
               if negb (truthy language_name)
               then ret unsupported_language_response
               else
                 evaluation <-
                   evaluate_cv_with_openai job_description' cv_text
                     language_name ;;
                 ret (EvaluationBody (round similarity_score 2) evaluation,
                      200)
           | None => ret unsupported_language_response
           end
     | _, _ => ret missing_input_response
     end)
    is_Exception
    (fun _ => ret internal_error_response).

End Endpoint.

(** ** The other services and endpoints *)

(** A JSON value as the handlers look at it: [None], a string, or any
    other value (number, boolean, array, object) with its truth value. *)
Inductive jvalue :=
| JNull
| JString (s : str)
| JOther (truth : bool).

(** A request with a JSON body: [request.is_json], and what
    [request.get_json()] gives when the body is an object; otherwise the
    exception that [get_json] or the first [data.get] raises. *)
Record JsonRequest := mk_json_request {
  is_json : bool;
  json_data : exn + list (str * jvalue)
}.

(** [data.get(key)] and [data.get(key, default)] *)
Fixpoint json_find (data : list (str * jvalue)) (key : str) : option jvalue :=
  match data with
  | [] => None
  | (k, v) :: data' => if str_eqb key k then Some v else json_find data' key
  end.

Definition json_get (data : list (str * jvalue)) (key : str) : jvalue :=
  match json_find data key with
  | Some v => v
  | None => JNull
  end.

Definition json_get_default (data : list (str * jvalue)) (key : str)
    (default : jvalue) : jvalue :=
  match json_find data key with
  | Some v => v
  | None => default
  end.

(** What the other endpoints answer with: [jsonify] of a dictionary of
    strings with a status, or [send_file(path, as_attachment=True)]. *)
Inductive reply :=
| Jsonify (fields : list (str * str)) (status : nat)
| SendFile (path : str).

(** [repr] of a list of strings in which no character needs escaping, as
    the keys of [SUPPORTED_LANGUAGES] are. *)
Definition repr_list (l : list str) : str :=
  py "[" ++ join (py ", ") (map (fun s => py "'" ++ s ++ py "'") l) ++ py "]".

Section Services.

Variable lower : str -> str.
Variable TEMP_DIR : str.
Variable path_exists : str -> bool.
Variable makedirs : str -> exn + unit.
Variable mkdtemp : str -> exn + str.
Variable uuid4 : str.
Variable file_save : FileStorage -> str -> exn + unit.
Variable pdf_pages : str -> exn + list (option str).
Variable docx_paragraphs : str -> exn + list str.
Variable read_utf8 : str -> exn + str.
Variable chat_completion : str -> str -> exn + str.

(** The environment of the savers: the two settings, the
    [str(uuid.uuid4())] of a saved file, and the three writers (font
    path, text and target for the PDF; text and target for the others). *)
Variable OUTPUT_DIR : str.
Variable FONT_PATH : str.
Variable file_id : str.
Variable write_pdf : str -> str -> str -> exn + unit.
Variable write_docx : str -> str -> exn + unit.
Variable write_txt : str -> str -> exn + unit.
Variable abspath : str -> str.
Variable send_file : str -> exn + unit.

(** The text of the [AttributeError] for a method called on a value that
    is not a string. *)
Variable attribute_error_msg : jvalue -> str -> str.

(** The [API_KEY] of the environment, [None] when it is not set. *)
Variable API_KEY : option str.

(** app/utils/authentication/auth.py *)

(** [api_key != API_KEY] *)
Definition differs_from_key (api_key : str) : bool :=
  match API_KEY with
  | Some key => negb (str_eqb api_key key)
  | None => true
  end.

(** [api_key_required(f)], called with the value of
    [request.headers.get("X-API-KEY")]: the decorator's own answer on the
    left, what [f] returns on the right. *)
Definition api_key_required {T : Type} (f : M T) (api_key : option str)
    : M (Response + T) :=
  if negb (opt_truthy api_key)
  then ret (inl (ErrorBody (py "Missing API Key"), 401))
  else
    match api_key with
    | Some key =>
        if differs_from_key key
        then ret (inl (ErrorBody (py "Invalid API Key"), 401))
        else r <- f ;; ret (inr r)
    | None => ret (inl (ErrorBody (py "Missing API Key"), 401))
    end.

(** app/utils/file/file_management.py *)

Definition save_as_pdf (cover_letter : str) : M str :=
  try_except
    (let pdf_path := path_join OUTPUT_DIR (file_id ++ py ".pdf") in
     lift (write_pdf FONT_PATH cover_letter pdf_path) ;;;
     ret pdf_path)
    is_Exception
    (fun e => raise (mk_exn Exception
                       (py "Error saving PDF file: " ++ exn_msg e))).

Definition save_as_docx (cover_letter : str) : M str :=
  try_except
    (let docx_path := path_join OUTPUT_DIR (file_id ++ py ".docx") in
     lift (write_docx cover_letter docx_path) ;;;
     ret docx_path)
    is_Exception
    (fun e => raise (mk_exn Exception
                       (py "Error saving DOCX file: " ++ exn_msg e))).

Definition save_as_txt (cover_letter : str) : M str :=
  try_except
    (let txt_path := path_join OUTPUT_DIR (file_id ++ py ".txt") in
     lift (write_txt cover_letter txt_path) ;;;
     ret txt_path)
    is_Exception
    (fun e => raise (mk_exn Exception
                       (py "Error saving TXT file: " ++ exn_msg e))).

Definition FORMAT_FUNCTIONS : list (str * (str -> M str)) :=
  [ (py "pdf", save_as_pdf);
    (py "docx", save_as_docx);
    (py "txt", save_as_txt) ].

Fixpoint format_find (d : list (str * (str -> M str))) (key : str)
    : option (str -> M str) :=
  match d with
  | [] => None
  | (k, v) :: d' => if str_eqb key k then Some v else format_find d' key
  end.

Definition get_format_function (file_format : str) : option (str -> M str) :=
  format_find FORMAT_FUNCTIONS file_format.

(** app/utils/document/cover_letter_generator.py *)

Definition cover_letter_system (language : str) : str :=
  py "Generate a professional cover letter in " ++ language
  ++ py ", with only the applicant's name, email, and phone number "
  ++ py "at the end.".

Definition cover_letter_prompt (job_description language : str) : str :=
  py "You are an AI-powered career assistant. Create a formal, engaging, and "
  ++ py "professional cover letter tailored to the following job description. "
  ++ py "Use " ++ language
  ++ py " for the letter. Ensure that the letter is concise, "
  ++ py "highlights key achievements relevant to the job, and maintains a "
  ++ py "confident and professional tone. The letter should be approximately "
  ++ py "250-350 words." ++ NL ++ NL ++ py "Job Description:" ++ NL
  ++ job_description
  ++ NL ++ NL
  ++ py "Please ensure that the applicant's name, email, and phone number "
  ++ py "appear at the end of the letter. Do not include any other personal "
  ++ py "information such as address, company address, birthdate, etc.".

Definition openai_error (e : exn) : exn :=
  mk_exn Exception (py "OpenAI API Error: " ++ exn_msg e).

Definition generate_cover_letter (job_description language : str) : M str :=
  let prompt := cover_letter_prompt job_description language in
  try_except
    (emit (ChatCompletion (py "gpt-4-turbo") (cover_letter_system language)
             prompt) ;;;
     content <- lift (chat_completion (cover_letter_system language) prompt) ;;
     ret (strip content))
    is_OpenAIError
    (fun e => raise (openai_error e)).

Definition cover_letter_with_cv_prompt (job_description cv_text language : str)
    : str :=
  py "You are an AI-powered career assistant. Create a cover letter in "
  ++ language
  ++ py " that analyzes and reflects both the provided job "
  ++ py "description and the candidate's CV. Ensure that the letter is "
  ++ py "professionally structured, emphasizing the candidate's qualifications "
  ++ py "and experiences relevant to the job, and adheres to a confident and "
  ++ py "professional tone. The cover letter should be between 250-350 words."
  ++ NL ++ NL
  ++ py "Job Description:" ++ NL ++ job_description ++ NL ++ NL
  ++ py "CV Text:" ++ NL ++ cv_text ++ NL ++ NL
  ++ py "Please ensure that the applicant's name, email, and phone number appear "
  ++ py "at the end of the letter. Do not include any other personal information "
  ++ py "such as address, company address, birthdate, etc.".

Definition generate_cover_letter_with_cv
    (job_description cv_text language : str) : M str :=
  let prompt := cover_letter_with_cv_prompt job_description cv_text language in
  try_except
    (emit (ChatCompletion (py "gpt-4-turbo") (cover_letter_system language)
             prompt) ;;;
     content <- lift (chat_completion (cover_letter_system language) prompt) ;;
     ret (strip content))
    is_OpenAIError
    (fun e => raise (openai_error e)).

(** app/utils/evaluation/interview_preparation.py *)

Definition interview_system (language : str) : str :=
  py "You are a professional AI career assistant writing in " ++ language
  ++ py ".".

Definition interview_prompt (job_description cv_text language : str) : str :=
  py "You are an AI-based career assistant specializing in interview "
  ++ py "preparation. Based on the job description and the candidate's CV, "
  ++ py "generate 10 relevant interview questions that are likely to be "
  ++ py "asked, with well-structured sample answers tailored to the candidate's "
  ++ py "profile." ++ NL ++ NL ++ py "Job Description:" ++ NL
  ++ job_description
  ++ NL ++ NL ++ py "Candidate's CV:" ++ NL ++ cv_text
  ++ NL ++ NL
  ++ py "Please provide responses that are professional, detailed, and "
  ++ py "aligned with the job role. Use " ++ language
  ++ py " language for all responses.".

Definition generate_interview_questions
    (job_description cv_text language : str) : M str :=
  let prompt := interview_prompt job_description cv_text language in
  try_except
    (emit (ChatCompletion (py "gpt-4-turbo") (interview_system language)
             prompt) ;;;
     content <- lift (chat_completion (interview_system language) prompt) ;;
     let formatted_response := strip content in
     ret formatted_response)
    is_OpenAIError
    (fun e => raise (openai_error e)).

(** app/routes.py, the other endpoints (the functions the route
    decorators wrap; logging calls are left out). *)

Definition error_reply (message : str) (status : nat) : reply :=
  Jsonify [(py "error", message)] status.

Definition internal_error_reply : reply :=
  error_reply (py "Internal server error.") 500.

Definition missing_input_reply : reply :=
  error_reply (py "CV file and job description are required.") 400.

Definition invalid_format_reply : reply :=
  error_reply (py "Invalid file format. Choose from 'pdf', 'docx', 'txt'.") 400.

Definition unsupported_language_reply : reply :=
  error_reply (py "Unsupported language. Choose from "
               ++ py "['en', 'tr', 'de', 'fr', 'es', 'it', 'nl'].") 400.

Definition health_check : M reply :=
  ret (Jsonify [(py "healthy", py "Ok")] 200).

(** [value.lower()] for a value read from the JSON body *)
Definition json_lower (value : jvalue) : M str :=
  match value with
  | JString s => ret (lower s)
  | _ => raise (mk_exn (OtherError (py "AttributeError"))
                  (attribute_error_msg value (py "lower")))
  end.

Definition generate_cover_letter_endpoint (request : JsonRequest) : M reply :=
  try_except
    (if negb (is_json request)
     then ret (error_reply (py "Request must be in JSON format.") 415)
     else
       data <- lift (json_data request) ;;
       let job_description := json_get data (py "job_description") in
       file_format <-
         json_lower (json_get_default data (py "file_format") (JString [])) ;;
       language <-
         json_lower (json_get_default data (py "language")
                       (JString (py "en"))) ;;
       match job_description with
       | JString job_description' =>
           if negb (truthy job_description')
              || negb (truthy (strip job_description'))
           then ret (error_reply (py "Job description is required.") 400)
           else
             match get_format_function file_format with
             | None => ret invalid_format_reply
             | Some format_function =>
                 match get_language_name language with
                 | Some language_name =>
                     if negb (truthy language_name)
                     then ret (error_reply
                                 (py "Unsupported language. Choose from "
                                  ++ repr_list (map fst SUPPORTED_LANGUAGES)
                                  ++ py ".") 400)
                     else
                       cover_letter <-
                         generate_cover_letter job_description'
                           language_name ;;
                       file_path <- format_function cover_letter ;;
                       let absolute_path := abspath file_path in
                       lift (send_file absolute_path) ;;;
                       ret (SendFile absolute_path)
                 | None =>
                     ret (error_reply
                            (py "Unsupported language. Choose from "
                             ++ repr_list (map fst SUPPORTED_LANGUAGES)
                             ++ py ".") 400)
                 end
             end
       | JOther true =>
           raise (mk_exn (OtherError (py "AttributeError"))
                    (attribute_error_msg job_description (py "strip")))
       | _ => ret (error_reply (py "Job description is required.") 400)
       end)
    is_Exception
    (fun _ => ret internal_error_reply).

Definition generate_cover_letter_with_cv_endpoint (request : Request)
    : M reply :=
  try_except
    (let job_description := form_get request (py "job_description") in
     let file_format :=
       lower (form_get_default request (py "file_format") []) in
     let language :=
       lower (form_get_default request (py "language") (py "en")) in
     let cv_file := files_get (files request) (py "cv_file") in
     match cv_file, job_description with
     | Some cv_file', Some job_description' =>
         if negb (file_truthy cv_file) || negb (opt_truthy job_description)
         then ret missing_input_reply
         else
           ensure_directory_exists path_exists makedirs TEMP_DIR ;;;
           temp_dir <- lift (mkdtemp TEMP_DIR) ;;
           temp_file_path <-
             save_temporary_file path_exists makedirs uuid4 file_save
               cv_file' temp_dir ;;
           cv_text <-
             extract_text lower pdf_pages docx_paragraphs read_utf8
               temp_file_path ;;
           match get_language_name language with
           | Some language_name =>
               if negb (truthy language_name)
               then ret unsupported_language_reply
               else
                 cover_letter <-
                   generate_cover_letter_with_cv job_description' cv_text
                     language_name ;;
                 match get_format_function file_format with
                 | None => ret invalid_format_reply
                 | Some format_function =>
                     file_path <- format_function cover_letter ;;
                     let absolute_path := abspath file_path in
                     lift (send_file absolute_path) ;;;
                     ret (SendFile absolute_path)
                 end
           | None => ret unsupported_language_reply
           end
     | _, _ => ret missing_input_reply
     end)
    is_Exception
    (fun _ => ret internal_error_reply).

Definition generate_interview_questions_endpoint (request : Request)
    : M reply :=
  try_except
    (let job_description := form_get request (py "job_description") in
     let language :=
       lower (form_get_default request (py "language") (py "en")) in
     let cv_file := files_get (files request) (py "cv_file") in
     match cv_file, job_description with
     | Some cv_file', Some job_description' =>
         if negb (file_truthy cv_file) || negb (opt_truthy job_description)
         then ret missing_input_reply
         else
           ensure_directory_exists path_exists makedirs TEMP_DIR ;;;
           temp_dir <- lift (mkdtemp TEMP_DIR) ;;
           temp_file_path <-
             save_temporary_file path_exists makedirs uuid4 file_save
               cv_file' temp_dir ;;
           cv_text <-
             extract_text lower pdf_pages docx_paragraphs read_utf8
               temp_file_path ;;
           match get_language_name language with
           | Some language_name =>
               if negb (truthy language_name)
               then ret unsupported_language_reply
               else
                 interview_qa <-
                   generate_interview_questions job_description' cv_text
                     language_name ;;
                 ret (Jsonify [(py "interview_qa", interview_qa)] 200)
           | None => ret unsupported_language_reply
           end
     | _, _ => ret missing_input_reply
     end)
    is_Exception
    (fun _ => ret internal_error_reply).

End Services.

(** ** Vocabulary of the statements *)

(** The spec's fixed set of supported language codes. *)
Definition supported_codes : list str :=
  [py "en"; py "tr"; py "de"; py "fr"; py "es"; py "it"; py "nl"].

(** The stopword list of [language] in an installed corpus, empty when
    the corpus has no file of that name. *)
Definition listed_words (c : Corpus) (language : str) : list str :=
  if contains (fileids c) language then words c language else [].

(** The spec's cleaned text, from the tokens of a text: the tokens whose
    lowercased form is a stopword are dropped, the others are joined by
    single spaces in their order and spelling. *)
Definition cleaned_text (lower : str -> str) (stop_words : list str)
    (toks : list str) : str :=
  join (py " ")
    (filter (fun tok => negb (contains stop_words (lower tok))) toks).

(** The two embedding calls and the comparison of a run, given the two
    cleaned texts: the value or the exception raised, and the calls
    made. *)
Definition compare_texts (embed : str -> exn + vector)
    (shape_error_msg : nat -> nat -> str) (job_clean cv_clean : str)
    : (exn + R) * list event :=
  match embed job_clean with
  | inl e => (inl e, [EmbedCall [job_clean]])
  | inr job_vector =>
      match embed cv_clean with
      | inl e => (inl e, [EmbedCall [job_clean]; EmbedCall [cv_clean]])
      | inr cv_vector =>
          (cosine_similarity shape_error_msg job_vector cv_vector,
           [EmbedCall [job_clean]; EmbedCall [cv_clean]])
      end
  end.

(** What the [except] clause of [compute_similarity_score] makes of a
    result. *)
Definition wrapped (r : exn + R) : exn + R :=
  match r with
  | inl e => inl (similarity_error e)
  | inr x => inr x
  end.


(** Both texts pass the first check of [compute_similarity_score]. *)
Definition texts_present (job_description cv_text : str) : Prop :=
  ~ blank job_description /\ ~ blank cv_text.

(** Sample environment for the examples. *)
Definition sample_corpus : Corpus :=
  mk_corpus [py "en"; py "english"] (fun _ => [py "the"; py "a"; py "in"]).

Definition installed : World := mk_world (Some sample_corpus).
Definition not_installed : World := mk_world None.

Definition no_msg : str := [].
Definition no_shape_msg (_ _ : nat) : str := [].

Definition embed_const (v : vector) (_ : str) : exn + vector := inr v.

(** An embedding provider that is down. *)
Definition provider_down : exn :=
  mk_exn (OtherError (py "ConnectionError")) (py "provider unreachable").

Definition embed_down (_ : str) : exn + vector := inl provider_down.

(** An embedding that sends the text "left" to [1] and every other text
    to [-1]. *)
Definition embed_opposed (text : str) : exn + vector :=
  if str_eqb text (py "left") then inr [1%R] else inr [(-1)%R].

(** A sample request for an unsupported language, and services that all
    succeed. *)
Definition sample_request : Request :=
  mk_request
    [(py "job_description", py "Python developer"); (py "language", py "XX")]
    [(py "cv_file", mk_file (py "cv.txt") [])].

Definition sample_dir : str := py "/tmp".
Definition always_exists (_ : str) : bool := true.
Definition makedirs_ok (_ : str) : exn + unit := inr tt.
Definition mkdtemp_ok (dir : str) : exn + str := inr (dir ++ py "/tmpab12").
Definition sample_uuid : str := py "0b1d".
Definition save_ok (_ : FileStorage) (_ : str) : exn + unit := inr tt.
Definition no_pages (_ : str) : exn + list (option str) := inr [].
Definition no_paragraphs (_ : str) : exn + list str := inr [].
Definition read_cv (_ : str) : exn + str := inr (py "Flask developer").
Definition chat_ok (_ _ : str) : exn + str := inr (py "Good match.").
Definition round_id (x : R) (_ : nat) : R := x.

(** The steps by which the three upload endpoints turn the uploaded CV
    into text: the temporary directory, the saved copy, the extraction. *)
Definition read_upload (lower : str -> str) (TEMP_DIR : str)
    (path_exists : str -> bool) (makedirs : str -> exn + unit)
    (mkdtemp : str -> exn + str) (uuid4 : str)
    (file_save : FileStorage -> str -> exn + unit)
    (pdf_pages : str -> exn + list (option str))
    (docx_paragraphs : str -> exn + list str)
    (read_utf8 : str -> exn + str) (cv_file : FileStorage) : M str :=
  ensure_directory_exists path_exists makedirs TEMP_DIR ;;;
  temp_dir <- lift (mkdtemp TEMP_DIR) ;;
  temp_file_path <-
    save_temporary_file path_exists makedirs uuid4 file_save cv_file
      temp_dir ;;
  extract_text lower pdf_pages docx_paragraphs read_utf8 temp_file_path.

(** The extensions [extract_text] reads and the formats a cover letter
    is saved in. *)
Definition readable_suffixes : list str := [py ".pdf"; py ".docx"; py ".txt"].
Definition output_formats : list str := [py "pdf"; py "docx"; py "txt"].

(** A name that can stand before an extension: not empty, without dot
    and without slash, as the text of a UUID is. *)
Definition plain_name (name : str) : Prop :=
  name <> [] /\ ~ In EXTSEP name /\ ~ In SEP name.

Definition is_chat_completion (ev : event) : Prop :=
  match ev with ChatCompletion _ _ _ => True | _ => False end.

(** What a call of one of the four OpenAI wrappers comes to, given the
    system and the user message it sends: one chat call and no change of
    state; the trimmed content when the call succeeds; an [Exception]
    carrying the message when the call raises an [OpenAIError]; the
    exception itself when it raises anything else. *)
Definition chat_outcome (chat_completion : str -> str -> exn + str)
    (system prompt : str) (w : World)
    (o : (exn + str) * World * list event) : Prop :=
  trace o = [ChatCompletion (py "gpt-4-turbo") system prompt]
  /\ world_after o = w
  /\ match chat_completion system prompt with
     | inr content =>
         result o = inr (strip content)
         /\ strip (strip content) = strip content
     | inl e =>
         if is_OpenAIError e
         then result o = inl (openai_error e)
         else result o = inl e
     end.

(** A computation that makes no traced call and leaves the state as it
    is, whatever it returns or raises. *)
Definition effect_free {A : Type} (m : M A) : Prop :=
  forall w, exists r, m w = (r, w, []).

(** A form request with one uploaded file. *)
Definition upload_request (name job_description language file_format : str)
    : Request :=
  mk_request
    [(py "job_description", job_description); (py "language", language);
     (py "file_format", file_format)]
    [(py "cv_file", mk_file name [])].

(** More of the sample environment. *)
Definition sample_output_dir : str := py "/out".
Definition sample_font : str := py "/fonts/NotoSans.ttf".
Definition sample_file_id : str := py "7c9e".
Definition write_pdf_ok (_ _ _ : str) : exn + unit := inr tt.
Definition write_ok (_ _ : str) : exn + unit := inr tt.
Definition abspath_id (path : str) : str := path.
Definition send_ok (_ : str) : exn + unit := inr tt.
Definition no_attribute_msg (_ : jvalue) (_ : str) : str := [].
Definition chat_padded (_ _ : str) : exn + str := inr (py "  Dear team  ").
Definition chat_rate_limited (_ _ : str) : exn + str :=
  inl (mk_exn OpenAIError (py "rate limit")).

(** * Properties *)

(** ** Strings *)

Lemma str_eqb_eq (a b : str) : str_eqb a b = true <-> a = b.
Proof.
  revert b; induction a as [|x a IH]; intros [|y b]; simpl.
  - tauto.
  - split; discriminate.
  - split; discriminate.
  - rewrite andb_true_iff, N.eqb_eq, IH.
    split; [intros [-> ->]; reflexivity | intros H; inversion H; auto].
Qed.

Lemma str_eqb_refl (a : str) : str_eqb a a = true.
Proof. apply str_eqb_eq; reflexivity. Qed.

Lemma contains_In (l : list str) (x : str) : contains l x = true <-> In x l.
Proof.
  unfold contains; rewrite existsb_exists; split.
  - intros [y [Hy E]]. apply str_eqb_eq in E. now subst.
  - intros H. exists x. split; [assumption | apply str_eqb_refl].
Qed.

Lemma blank_app (a b : str) : blank (a ++ b) <-> blank a /\ blank b.
Proof. unfold blank; apply Forall_app. Qed.

Lemma blank_rev (s : str) : blank (rev s) <-> blank s.
Proof.
  unfold blank; rewrite !Forall_forall.
  split; intros H c Hc; apply H.
  - apply -> in_rev. assumption.
  - apply in_rev. assumption.
Qed.

Lemma lstrip_nil_iff (s : str) : lstrip s = [] <-> blank s.
Proof.
  induction s as [|c s IH]; simpl.
  - split; [constructor | reflexivity].
  - destruct (isspace c) eqn:E.
    + rewrite IH. split; intros H.
      * constructor; assumption.
      * inversion H; assumption.
    + split; [discriminate |].
      intros H; inversion H; congruence.
Qed.

Lemma lstrip_blank_iff (s : str) : blank (lstrip s) <-> blank s.
Proof.
  induction s as [|c s IH]; simpl; [tauto |].
  destruct (isspace c) eqn:E; [| tauto].
  rewrite IH. split; intros H.
  - constructor; assumption.
  - inversion H; assumption.
Qed.

Lemma strip_nil_iff (s : str) : strip s = [] <-> blank s.
Proof.
  unfold strip, rstrip.
  rewrite <- lstrip_blank_iff, <- blank_rev, <- lstrip_nil_iff.
  split; intros H.
  - apply (f_equal (@rev char)) in H. now rewrite rev_involutive in H.
  - now rewrite H.
Qed.

Lemma not_truthy_strip (s : str) : negb (truthy (strip s)) = true <-> blank s.
Proof.
  rewrite <- strip_nil_iff. destruct (strip s); simpl; split;
    congruence.
Qed.

(** The string functions on sample inputs. *)

Example split_sample :
  split (py "  Hello   big world ") = [py "Hello"; py "big"; py "world"].
Proof. reflexivity. Qed.

Example strip_sample : strip (py "  a b  ") = py "a b".
Proof. reflexivity. Qed.

Example join_sample : join (py ", ") [py "a"; py "b"; py "c"] = py "a, b, c".
Proof. reflexivity. Qed.

Example splitext_sample :
  splitext (py "/tmp/x.y/cv.tar.gz") = (py "/tmp/x.y/cv.tar", py ".gz")
  /\ splitext (py ".bashrc") = (py ".bashrc", [])
  /\ splitext (py "/a.b/c") = (py "/a.b/c", []).
Proof. repeat split. Qed.

Example path_join_sample :
  path_join (py "/tmp") (py "f.txt") = py "/tmp/f.txt"
  /\ path_join (py "/tmp/") (py "f.txt") = py "/tmp/f.txt"
  /\ path_join (py "/tmp") (py "/f.txt") = py "/f.txt".
Proof. repeat split. Qed.

Example cleaned_text_sample :
  cleaned_text ascii_lower [py "the"; py "a"]
    (split (py "The cat saw A dog")) = py "cat saw dog".
Proof. reflexivity. Qed.

(** ** [split] computes the tokens of the spec *)

Lemma split_scan_blank (ws s : str) :
  blank ws -> split_scan [] (ws ++ s) = split_scan [] s.
Proof.
  induction 1 as [|c ws Hc _ IH]; simpl; [reflexivity |].
  now rewrite Hc.
Qed.

Lemma split_scan_solid (t : str) :
  solid t -> forall cur s, split_scan cur (t ++ s) = split_scan (cur ++ t) s.
Proof.
  induction 1 as [|c t Hc _ IH]; intros cur s; simpl.
  - now rewrite app_nil_r.
  - rewrite Hc, IH, <- app_assoc. reflexivity.
Qed.

Lemma split_scan_flush (cur rest : str) :
  cur <> [] -> starts_blank rest ->
  split_scan cur rest = cur :: split_scan [] rest.
Proof.
  intros Hcur Hrest. destruct rest as [|c rest]; simpl.
  - destruct cur; [congruence | reflexivity].
  - simpl in Hrest. rewrite Hrest. destruct cur; [congruence | reflexivity].
Qed.

Lemma tokenization_unique (s : str) (toks : list str) :
  tokenization s toks -> toks = split s.
Proof.
  unfold split. induction 1 as [ws Hws | ws t rest ts Hws Ht Hsolid Hrest _ IH].
  - rewrite <- (app_nil_r ws), split_scan_blank by assumption. reflexivity.
  - rewrite split_scan_blank, split_scan_solid by assumption. simpl.
    rewrite split_scan_flush by assumption. now rewrite <- IH.
Qed.

Lemma tokenization_space (c : char) (s : str) (toks : list str) :
  isspace c = true -> tokenization s toks -> tokenization (c :: s) toks.
Proof.
  intros Hc H. destruct H as [ws Hws | ws t rest ts Hws Ht Hsolid Hrest Htok].
  - apply tok_done. constructor; assumption.
  - change (c :: ws ++ t ++ rest) with ((c :: ws) ++ t ++ rest).
    apply tok_word; try assumption. constructor; assumption.
Qed.

Lemma split_scan_tokenization (s cur : str) :
  solid cur ->
  match cur with
  | [] => tokenization s (split_scan [] s)
  | _ => tokenization (cur ++ s) (split_scan cur s)
  end.
Proof.
  revert cur. induction s as [|c s IH]; intros cur Hcur.
  - destruct cur as [|x cur]; simpl.
    + apply tok_done; constructor.
    + apply (tok_word [] (x :: cur) [] []);
        [constructor | discriminate | assumption | exact I |].
      apply tok_done; constructor.
  - simpl. destruct (isspace c) eqn:Hc.
    + assert (Hs : tokenization (c :: s) (split_scan [] s)).
      { apply tokenization_space; [assumption |].
        apply (IH []). constructor. }
      destruct cur as [|x cur]; [assumption |].
      apply (tok_word [] (x :: cur) (c :: s));
        [constructor | discriminate | assumption | exact Hc | assumption].
    + assert (Hcur' : solid (cur ++ [c])).
      { apply Forall_app; split; [assumption | repeat constructor; assumption]. }
      specialize (IH (cur ++ [c]) Hcur').
      destruct cur as [|x cur]; simpl in *; [assumption |].
      rewrite <- app_assoc in IH. exact IH.
Qed.

Lemma split_tokenization (s : str) : tokenization s (split s).
Proof. apply (split_scan_tokenization s []). constructor. Qed.

(** ** Running the scorer *)

Lemma result_of {A : Type} (r : exn + A) (w : World) (t : list event) :
  result (r, w, t) = r.
Proof. reflexivity. Qed.

Lemma world_after_of {A : Type} (r : exn + A) (w : World) (t : list event) :
  world_after (r, w, t) = w.
Proof. reflexivity. Qed.

Lemma trace_of {A : Type} (r : exn + A) (w : World) (t : list event) :
  trace (r, w, t) = t.
Proof. reflexivity. Qed.

Section Runs.

Variable lower : str -> str.
Variable remote : option Corpus.
Variable lookup_error_msg : str.
Variable embed : str -> exn + vector.
Variable shape_error_msg : nat -> nat -> str.

Local Abbreviation get_stopwords' := (get_stopwords remote lookup_error_msg).
Local Abbreviation preprocess_text' :=
  (preprocess_text lower remote lookup_error_msg).
Local Abbreviation score :=
  (compute_similarity_score lower remote lookup_error_msg embed
     shape_error_msg).

Lemma get_stopwords_installed (language : str) (w : World) (c : Corpus) :
  nltk_data w = Some c ->
  get_stopwords' language w = (inr (listed_words c language), w, []).
Proof.
  intros Hw.
  unfold get_stopwords, bind, try_except, stopwords_if_listed, bind,
    stopwords_fileids, stopwords_words, listed_words, ret.
  rewrite Hw. destruct (contains (fileids c) language); simpl; now rewrite ?Hw.
Qed.

Lemma get_stopwords_missing (language : str) (w : World) :
  nltk_data w = None ->
  get_stopwords' language w =
  match remote with
  | Some c => (inr (listed_words c language), mk_world (Some c),
               [Download (py "stopwords")])
  | None => (inl (mk_exn LookupError lookup_error_msg), w,
             [Download (py "stopwords")])
  end.
Proof.
  intros Hw.
  unfold get_stopwords, bind, try_except, stopwords_if_listed, bind,
    stopwords_fileids, stopwords_words, listed_words, nltk_download, ret.
  rewrite Hw. simpl. destruct remote as [c|]; simpl.
  - destruct (contains (fileids c) language); reflexivity.
  - rewrite Hw. reflexivity.
Qed.

Lemma preprocess_text_run (text language : str) (w : World) :
  preprocess_text' text language w =
  match get_stopwords' language w with
  | (inl e, w1, t1) => (inl e, w1, t1)
  | (inr stop_words, w1, t1) =>
      (inr (cleaned_text lower stop_words (split text)), w1, t1)
  end.
Proof.
  unfold preprocess_text, bind, ret, cleaned_text.
  destruct (get_stopwords' language w) as [[[e|sw] w1] t1]; [reflexivity |].
  now rewrite app_nil_r.
Qed.

Lemma get_stopwords_again (language : str) (w w1 : World)
    (stop_words : list str) (t1 : list event) :
  get_stopwords' language w = (inr stop_words, w1, t1) ->
  get_stopwords' language w1 = (inr stop_words, w1, []).
Proof.
  destruct (nltk_data w) as [c|] eqn:Hw.
  - rewrite (get_stopwords_installed language w c Hw).
    intros H; inversion H; subst.
    apply get_stopwords_installed; assumption.
  - rewrite (get_stopwords_missing language w Hw).
    pose proof (get_stopwords_installed language) as Hinst.
    destruct remote as [c|]; intros H; inversion H; subst.
    now apply Hinst.
Qed.

Lemma score_blank (job_description cv_text language : str) (w : World) :
  blank job_description \/ blank cv_text ->
  score job_description cv_text language w = (inl empty_text_error, w, []).
Proof.
  intros H. unfold compute_similarity_score.
  assert (E : negb (truthy (strip job_description))
              || negb (truthy (strip cv_text)) = true).
  { apply orb_true_iff. rewrite !not_truthy_strip. assumption. }
  now rewrite E.
Qed.

Lemma texts_present_check (job_description cv_text : str) :
  texts_present job_description cv_text ->
  negb (truthy (strip job_description)) || negb (truthy (strip cv_text))
  = false.
Proof.
  intros [Hj Hc]. apply orb_false_iff.
  split; apply not_true_is_false; rewrite not_truthy_strip; assumption.
Qed.

Lemma score_unsupported (job_description cv_text language : str) (w : World) :
  texts_present job_description cv_text ->
  dict_in SUPPORTED_LANGUAGES language = false ->
  score job_description cv_text language w
  = (inl (unsupported_language_error language), w, []).
Proof.
  intros Hp Hl. unfold compute_similarity_score.
  now rewrite (texts_present_check _ _ Hp), Hl.
Qed.

Lemma score_run (job_description cv_text language : str) (w : World) :
  texts_present job_description cv_text ->
  dict_in SUPPORTED_LANGUAGES language = true ->
  score job_description cv_text language w =
  match get_stopwords' language w with
  | (inl e, w1, t1) => (inl (similarity_error e), w1, t1)
  | (inr stop_words, w1, t1) =>
      let c :=
        compare_texts embed shape_error_msg
          (cleaned_text lower stop_words (split job_description))
          (cleaned_text lower stop_words (split cv_text)) in
      (wrapped (fst c), w1, t1 ++ snd c)
  end.
Proof.
  intros Hp Hl. unfold compute_similarity_score.
  rewrite (texts_present_check _ _ Hp), Hl. simpl.
  unfold try_except, bind at 1.
  rewrite preprocess_text_run.
  destruct (get_stopwords' language w) as [[[e|sw] w1] t1] eqn:Hsw.
  - simpl. now rewrite app_nil_r.
  - unfold bind at 1. rewrite preprocess_text_run.
    rewrite (get_stopwords_again _ _ _ _ _ Hsw).
    unfold compare_texts, embed_call, bind, emit, lift, ret.
    destruct (embed (cleaned_text lower sw (split job_description)))
      as [e|jv]; simpl.
    + now rewrite app_nil_r.
    + destruct (embed (cleaned_text lower sw (split cv_text))) as [e|cv];
        simpl.
      * now rewrite app_nil_r.
      * destruct (cosine_similarity shape_error_msg jv cv) as [e|r]; simpl;
          now rewrite ?app_nil_r.
Qed.

End Runs.

(** ** The cosine of two rows *)

Section Cosine.

Open Scope R_scope.

Lemma dot_comm (x y : vector) : dot x y = dot y x.
Proof.
  revert y; induction x as [|a x IH]; intros [|b y]; simpl; try reflexivity.
  rewrite IH. ring.
Qed.

Lemma dot_self_nonneg (x : vector) : 0 <= dot x x.
Proof.
  induction x as [|a x IH]; simpl; [lra |].
  pose proof (Rle_0_sqr a) as Ha. unfold Rsqr in Ha. lra.
Qed.

Lemma cauchy_schwarz (x y : vector) :
  dot x y * dot x y <= dot x x * dot y y.
Proof.
  revert y; induction x as [|a x IH]; intros [|b y]; simpl.
  - lra.
  - lra.
  - pose proof (dot_self_nonneg (a :: x)) as H. simpl in H. lra.
  - specialize (IH y).
    pose proof (dot_self_nonneg x) as HA.
    pose proof (dot_self_nonneg y) as HB.
    set (D := dot x y) in *. set (A := dot x x) in *. set (B := dot y y) in *.
    assert (Hmid : 2 * (a * b * D) <= a * a * B + A * (b * b)).
    { destruct (Req_dec_T B 0) as [HB0 | HB0].
      - assert (HD : D = 0) by nra. rewrite HD, HB0. nra.
      - assert (HBpos : 0 < B) by lra.
        pose proof (Rle_0_sqr (a * B - b * D)) as Hsq. unfold Rsqr in Hsq.
        assert (Hb : b * b * (D * D) <= b * b * (A * B)) by nra.
        assert (Hk : 0 <= B * (a * a * B + A * (b * b) - 2 * (a * b * D)))
          by nra.
        nra. }
    nra.
Qed.

Lemma handle_zeros_pos (n : R) : 0 <= n -> 0 < handle_zeros_in_scale n.
Proof.
  intros Hn. unfold handle_zeros_in_scale.
  destruct (Req_dec_T n 0); lra.
Qed.

Lemma handle_zeros_nonzero (x : vector) :
  handle_zeros_in_scale (row_norm x) <> 0.
Proof.
  pose proof (handle_zeros_pos (row_norm x) (sqrt_pos _)). lra.
Qed.

Lemma dot_scaled (k m : R) (x y : vector) :
  k <> 0 -> m <> 0 ->
  dot (map (fun a => a / k) x) (map (fun b => b / m) y)
  = dot x y / (k * m).
Proof.
  intros Hk Hm. revert y; induction x as [|a x IH]; intros [|b y]; simpl;
    try (field; split; assumption).
  rewrite IH. field. split; assumption.
Qed.

Lemma dot_normalized (x y : vector) :
  dot (normalize x) (normalize y)
  = dot x y / (handle_zeros_in_scale (row_norm x)
               * handle_zeros_in_scale (row_norm y)).
Proof.
  unfold normalize. apply dot_scaled; apply handle_zeros_nonzero.
Qed.

Lemma row_norm_zero (x : vector) : row_norm x = 0 -> dot x x = 0.
Proof.
  unfold row_norm. intros H. apply sqrt_eq_0; [apply dot_self_nonneg | exact H].
Qed.

Lemma dot_zero_norm (x y : vector) :
  row_norm x = 0 \/ row_norm y = 0 -> dot x y = 0.
Proof.
  intros H. pose proof (cauchy_schwarz x y) as Hcs.
  pose proof (dot_self_nonneg x). pose proof (dot_self_nonneg y).
  destruct H as [H | H]; apply row_norm_zero in H; rewrite H in Hcs; nra.
Qed.

Lemma row_norm_sqr (x : vector) : row_norm x * row_norm x = dot x x.
Proof. unfold row_norm. apply sqrt_sqrt, dot_self_nonneg. Qed.

(** The quotient sklearn computes stays between -1 and 1 and has the
    sign of the dot product. *)
Lemma normalized_dot_range (x y : vector) :
  -1 <= dot (normalize x) (normalize y) <= 1
  /\ (0 <= dot x y -> 0 <= dot (normalize x) (normalize y))
  /\ (dot x y < 0 -> dot (normalize x) (normalize y) < 0).
Proof.
  rewrite dot_normalized.
  pose proof (handle_zeros_pos _ (sqrt_pos (dot x x))) as Hx.
  pose proof (handle_zeros_pos _ (sqrt_pos (dot y y))) as Hy.
  fold (row_norm x) in Hx. fold (row_norm y) in Hy.
  set (sx := handle_zeros_in_scale (row_norm x)) in *.
  set (sy := handle_zeros_in_scale (row_norm y)) in *.
  assert (Hs : 0 < sx * sy) by nra.
  assert (Hbound : dot x y * dot x y <= (sx * sy) * (sx * sy)).
  { destruct (Req_dec_T (row_norm x) 0) as [Hx0 | Hx0].
    { rewrite (dot_zero_norm x y (or_introl Hx0)). nra. }
    destruct (Req_dec_T (row_norm y) 0) as [Hy0 | Hy0].
    { rewrite (dot_zero_norm x y (or_intror Hy0)). nra. }
    assert (Ex : sx = row_norm x).
    { unfold sx, handle_zeros_in_scale.
      destruct (Req_dec_T (row_norm x) 0); [contradiction | reflexivity]. }
    assert (Ey : sy = row_norm y).
    { unfold sy, handle_zeros_in_scale.
      destruct (Req_dec_T (row_norm y) 0); [contradiction | reflexivity]. }
    rewrite Ex, Ey.
    replace (row_norm x * row_norm y * (row_norm x * row_norm y))
      with ((row_norm x * row_norm x) * (row_norm y * row_norm y)) by ring.
    rewrite !row_norm_sqr. apply cauchy_schwarz. }
  assert (Habs : - (sx * sy) <= dot x y <= sx * sy) by nra.
  repeat split.
  - apply Rmult_le_reg_r with (r := sx * sy); [assumption |].
    unfold Rdiv. rewrite Rmult_assoc, Rinv_l by lra. lra.
  - apply Rmult_le_reg_r with (r := sx * sy); [assumption |].
    unfold Rdiv. rewrite Rmult_assoc, Rinv_l by lra. lra.
  - intros Hd. apply Rmult_le_reg_r with (r := sx * sy); [assumption |].
    unfold Rdiv. rewrite Rmult_assoc, Rinv_l by lra. lra.
  - intros Hd. apply Rmult_lt_reg_r with (r := sx * sy); [assumption |].
    unfold Rdiv. rewrite Rmult_assoc, Rinv_l by lra. lra.
Qed.

Lemma normalized_dot_zero_norm (x y : vector) :
  row_norm x = 0 \/ row_norm y = 0 -> dot (normalize x) (normalize y) = 0.
Proof.
  intros H. rewrite dot_normalized, (dot_zero_norm x y H).
  unfold Rdiv. ring.
Qed.

Lemma normalized_dot_comm (x y : vector) :
  dot (normalize x) (normalize y) = dot (normalize y) (normalize x).
Proof. apply dot_comm. Qed.

End Cosine.

(** ** The supported languages *)

Lemma supported_codes_keys : map fst SUPPORTED_LANGUAGES = supported_codes.
Proof. reflexivity. Qed.

Lemma dict_in_supported (language : str) :
  dict_in SUPPORTED_LANGUAGES language = true <-> In language supported_codes.
Proof.
  unfold dict_in. rewrite supported_codes_keys. apply contains_In.
Qed.

Lemma dict_in_unsupported (language : str) :
  dict_in SUPPORTED_LANGUAGES language = false
  <-> ~ In language supported_codes.
Proof.
  rewrite <- dict_in_supported.
  destruct (dict_in SUPPORTED_LANGUAGES language); split; congruence.
Qed.

Lemma supported_language_has_name (language : str) :
  In language supported_codes ->
  exists name, get_language_name language = Some name /\ truthy name = true.
Proof.
  intros H. simpl in H.
  repeat (destruct H as [H | H]; [subst; eexists; split; reflexivity |]).
  contradiction.
Qed.

(** ** The three errors of [compute_similarity_score] *)

Lemma inl_inv {A B : Type} (a b : A) : @inl A B a = inl b -> a = b.
Proof. congruence. Qed.

Lemma empty_text_error_not_unsupported (language : str) :
  empty_text_error <> unsupported_language_error language.
Proof.
  intros H. apply (f_equal exn_msg) in H. vm_compute in H. discriminate H.
Qed.

Lemma empty_text_error_not_wrapped (e : exn) :
  empty_text_error <> similarity_error e.
Proof. unfold empty_text_error, similarity_error. congruence. Qed.

Lemma unsupported_not_wrapped (language : str) (e : exn) :
  unsupported_language_error language <> similarity_error e.
Proof. unfold unsupported_language_error, similarity_error. congruence. Qed.

Section Outcomes.

Variable lower : str -> str.
Variable remote : option Corpus.
Variable lookup_error_msg : str.
Variable embed : str -> exn + vector.
Variable shape_error_msg : nat -> nat -> str.

Local Abbreviation get_stopwords' := (get_stopwords remote lookup_error_msg).
Local Abbreviation cosine := (cosine_similarity shape_error_msg).
Local Abbreviation score :=
  (compute_similarity_score lower remote lookup_error_msg embed
     shape_error_msg).

Lemma cosine_similarity_value (x y : vector) (r : R) :
  cosine x y = inr r ->
  r = dot (normalize x) (normalize y)
  /\ length x = length y /\ length x <> 0%nat.
Proof.
  unfold cosine_similarity.
  destruct (length x =? 0)%nat eqn:Ex; simpl; [discriminate |].
  destruct (length y =? 0)%nat eqn:Ey; simpl; [discriminate |].
  destruct (length x =? length y)%nat eqn:Exy; simpl; [| discriminate].
  intros H; inversion H. apply Nat.eqb_eq in Exy. apply Nat.eqb_neq in Ex.
  auto.
Qed.

Lemma cosine_similarity_defined (x y : vector) :
  length x = length y -> length x <> 0%nat ->
  cosine x y = inr (dot (normalize x) (normalize y)).
Proof.
  intros Hxy Hx. unfold cosine_similarity.
  rewrite <- Hxy, Nat.eqb_refl.
  apply Nat.eqb_neq in Hx. now rewrite Hx.
Qed.

Lemma cosine_similarity_sym (x y : vector) (r : R) :
  cosine x y = inr r -> cosine y x = inr r.
Proof.
  intros H. apply cosine_similarity_value in H as [-> [Hxy Hx]].
  rewrite cosine_similarity_defined by congruence.
  now rewrite normalized_dot_comm.
Qed.

(** The three ways a call goes: rejected for a blank text, rejected for
    the language, or run. *)
Lemma score_cases (job_description cv_text language : str) (w : World) :
  ((blank job_description \/ blank cv_text)
   /\ score job_description cv_text language w
      = (inl empty_text_error, w, []))
  \/ (texts_present job_description cv_text
      /\ ~ In language supported_codes
      /\ score job_description cv_text language w
         = (inl (unsupported_language_error language), w, []))
  \/ (texts_present job_description cv_text
      /\ In language supported_codes
      /\ score job_description cv_text language w =
         match get_stopwords' language w with
         | (inl e, w1, t1) => (inl (similarity_error e), w1, t1)
         | (inr stop_words, w1, t1) =>
             let c :=
               compare_texts embed shape_error_msg
                 (cleaned_text lower stop_words (split job_description))
                 (cleaned_text lower stop_words (split cv_text)) in
             (wrapped (fst c), w1, t1 ++ snd c)
         end).
Proof.
  destruct (negb (truthy (strip job_description))) eqn:Ej.
  { left. apply not_truthy_strip in Ej.
    split; [left; assumption | apply score_blank; left; assumption]. }
  destruct (negb (truthy (strip cv_text))) eqn:Ec.
  { left. apply not_truthy_strip in Ec.
    split; [right; assumption | apply score_blank; right; assumption]. }
  assert (Hp : texts_present job_description cv_text).
  { split; intros Hb; apply not_truthy_strip in Hb; congruence. }
  right. destruct (dict_in SUPPORTED_LANGUAGES language) eqn:El.
  - right. split; [assumption |]. split; [now apply dict_in_supported |].
    now apply score_run.
  - left. split; [assumption |]. split; [now apply dict_in_unsupported |].
    now apply score_unsupported.
Qed.

(** A score is returned only by a run in which nothing failed. *)
Lemma score_success (job_description cv_text language : str) (w : World)
    (r : R) :
  result (score job_description cv_text language w) = inr r ->
  texts_present job_description cv_text
  /\ In language supported_codes
  /\ exists stop_words w1 t1 job_vector cv_vector,
       get_stopwords' language w = (inr stop_words, w1, t1)
       /\ embed (cleaned_text lower stop_words (split job_description))
          = inr job_vector
       /\ embed (cleaned_text lower stop_words (split cv_text))
          = inr cv_vector
       /\ cosine job_vector cv_vector = inr r.
Proof.
  destruct (score_cases job_description cv_text language w)
    as [[_ E] | [[_ [_ E]] | [Hp [Hl E]]]]; rewrite E;
    try (simpl; discriminate).
  destruct (get_stopwords' language w) as [[[e|sw] w1] t1] eqn:Hsw;
    [simpl; discriminate |].
  unfold compare_texts.
  destruct (embed (cleaned_text lower sw (split job_description)))
    as [e|jv] eqn:Ej; [simpl; discriminate |].
  destruct (embed (cleaned_text lower sw (split cv_text)))
    as [e|cv] eqn:Ec; [simpl; discriminate |].
  unfold result; simpl.
  destruct (cosine jv cv) as [e|r'] eqn:Er; simpl; [discriminate |].
  intros H; inversion H; subst.
  split; [assumption |]. split; [assumption |].
  exists sw, w1, t1, jv, cv. auto.
Qed.

Lemma score_failure (job_description cv_text language : str) (w : World)
    (e : exn) :
  result (score job_description cv_text language w) = inl e ->
  e = empty_text_error
  \/ e = unsupported_language_error language
  \/ exists cause, e = similarity_error cause.
Proof.
  destruct (score_cases job_description cv_text language w)
    as [[_ E] | [[_ [_ E]] | [_ [_ E]]]]; rewrite E.
  - unfold result; simpl. intros H; inversion H. auto.
  - unfold result; simpl. intros H; inversion H. auto.
  - destruct (get_stopwords' language w) as [[[e0|sw] w1] t1].
    + unfold result; simpl. intros H; inversion H. eauto.
    + unfold result; simpl.
      destruct (fst (compare_texts embed shape_error_msg _ _)) as [e0|r];
        simpl; intros H; inversion H. eauto.
Qed.

(** A run in which the two embeddings are rows of one positive length. *)
Lemma score_with_vectors (job_description cv_text language : str)
    (w w1 : World) (stop_words : list str) (t1 : list event)
    (job_vector cv_vector : vector) :
  texts_present job_description cv_text ->
  In language supported_codes ->
  get_stopwords' language w = (inr stop_words, w1, t1) ->
  embed (cleaned_text lower stop_words (split job_description))
  = inr job_vector ->
  embed (cleaned_text lower stop_words (split cv_text)) = inr cv_vector ->
  cosine job_vector cv_vector
  = inr (dot (normalize job_vector) (normalize cv_vector)) ->
  score job_description cv_text language w
  = (inr (dot (normalize job_vector) (normalize cv_vector)), w1,
     t1 ++ [EmbedCall [cleaned_text lower stop_words (split job_description)];
            EmbedCall [cleaned_text lower stop_words (split cv_text)]]).
Proof.
  intros Hp Hl Hsw Hj Hc Hcos.
  rewrite score_run by (try assumption; now apply dict_in_supported).
  rewrite Hsw. unfold compare_texts. rewrite Hj, Hc, Hcos. reflexivity.
Qed.

End Outcomes.

(** * The claims *)

(** C1.  For every text and language code, the cleaned text that
    [preprocess_text] produces is the one the spec describes: the text is
    split on whitespace into its tokens (which exist and are unique), the
    tokens whose lowercased form is in the stopword set of the language
    are dropped and no others, and the remaining tokens are joined by
    single spaces in their original order and spelling.  The stopword
    set is the one [get_stopwords] returns for the language. *)
Theorem preprocess_text_cleaned
    (lower : str -> str) (remote : option Corpus)
    (lookup_error_msg text language : str) (w w1 : World)
    (stop_words : list str) (t1 : list event) :
  get_stopwords remote lookup_error_msg language w
  = (inr stop_words, w1, t1) ->
  (exists toks, tokenization text toks)
  /\ (forall toks, tokenization text toks ->
      preprocess_text lower remote lookup_error_msg text language w
      = (inr (cleaned_text lower stop_words toks), w1, t1)).
Proof.
  intros Hsw. split.
  - exists (split text). apply split_tokenization.
  - intros toks Htok. apply tokenization_unique in Htok. subst toks.
    now rewrite preprocess_text_run, Hsw.
Qed.

Lemma preprocess_text_cleaned_example :
  get_stopwords None no_msg (py "en") installed
  = (inr [py "the"; py "a"; py "in"], installed, [])
  /\ preprocess_text ascii_lower None no_msg (py "The Cat in a  Hat")
       (py "en") installed
     = (inr (py "Cat Hat"), installed, []).
Proof.
  split; [reflexivity |].
  exact (proj2
           (preprocess_text_cleaned ascii_lower None no_msg
              (py "The Cat in a  Hat") (py "en") installed installed
              [py "the"; py "a"; py "in"] [] eq_refl)
           (split (py "The Cat in a  Hat")) (split_tokenization _)).
Defined.

(** C5.  [compute_similarity_score] fails with the empty-text
    [ValueError] exactly when the job description or the CV text is empty
    or all whitespace, whatever the language code is: a blank text always
    gives this failure, and texts that are non-empty after trimming never
    do. *)
Theorem blank_text_is_invalid_input
    (lower : str -> str) (remote : option Corpus) (lookup_error_msg : str)
    (embed : str -> exn + vector) (shape_error_msg : nat -> nat -> str)
    (job_description cv_text language : str) (w : World) :
  result (compute_similarity_score lower remote lookup_error_msg embed
            shape_error_msg job_description cv_text language w)
  = inl empty_text_error
  <-> blank job_description \/ blank cv_text.
Proof.
  split.
  - intros H.
    destruct (score_cases lower remote lookup_error_msg embed shape_error_msg
                job_description cv_text language w)
      as [[Hb _] | [[_ [_ E]] | [_ [_ E]]]]; [assumption | |];
      rewrite E in H; exfalso.
    + unfold result in H; simpl in H. apply inl_inv in H.
      symmetry in H. exact (empty_text_error_not_unsupported _ H).
    + destruct (get_stopwords remote lookup_error_msg language w)
        as [[[e|sw] w1] t1]; unfold result in H; simpl in H.
      * apply inl_inv in H. symmetry in H.
        exact (empty_text_error_not_wrapped _ H).
      * destruct (fst (compare_texts embed shape_error_msg _ _)) as [e|r];
          simpl in H; [| discriminate H].
        apply inl_inv in H. symmetry in H.
        exact (empty_text_error_not_wrapped _ H).
  - intros Hb. now rewrite score_blank.
Qed.

Lemma sample_texts_present :
  texts_present (py "Python developer") (py "Flask developer").
Proof.
  split; intros H; apply not_truthy_strip in H; vm_compute in H;
    discriminate H.
Qed.

Lemma xx_unsupported : ~ In (py "xx") supported_codes.
Proof. apply dict_in_unsupported. reflexivity. Qed.

Lemma en_supported : In (py "en") supported_codes.
Proof. apply dict_in_supported. reflexivity. Qed.

(** C4, as stated, fails: with a blank job description the unsupported
    code "xx" is not what the call fails with; the empty-text check comes
    first and its error is a different one. *)
Lemma blank_text_precedes_language_check :
  ~ In (py "xx") supported_codes
  /\ result (compute_similarity_score ascii_lower None no_msg
               (embed_const [1%R]) no_shape_msg
               (py " ") (py "Python developer") (py "xx") installed)
     = inl empty_text_error
  /\ empty_text_error <> unsupported_language_error (py "xx").
Proof.
  split; [exact xx_unsupported |]. split.
  - rewrite score_blank; [reflexivity |].
    left. repeat constructor.
  - apply empty_text_error_not_unsupported.
Qed.

(** C4, amended.  For a language code outside {en, tr, de, fr, es, it, nl}
    [compute_similarity_score] makes no call to the embedding provider
    (it makes no outside call at all) and fails: with the
    unsupported-language [ValueError] when both texts are non-blank, and
    with the empty-text [ValueError], which is checked first, when one of
    them is blank.  For a code inside the set the unsupported-language
    failure does not occur. *)
Theorem unsupported_language_rejected
    (lower : str -> str) (remote : option Corpus) (lookup_error_msg : str)
    (embed : str -> exn + vector) (shape_error_msg : nat -> nat -> str)
    (job_description cv_text language : str) (w : World) :
  (~ In language supported_codes ->
   trace (compute_similarity_score lower remote lookup_error_msg embed
            shape_error_msg job_description cv_text language w) = []
   /\ (texts_present job_description cv_text ->
       result (compute_similarity_score lower remote lookup_error_msg embed
                 shape_error_msg job_description cv_text language w)
       = inl (unsupported_language_error language))
   /\ (blank job_description \/ blank cv_text ->
       result (compute_similarity_score lower remote lookup_error_msg embed
                 shape_error_msg job_description cv_text language w)
       = inl empty_text_error))
  /\ (In language supported_codes ->
      forall l,
        result (compute_similarity_score lower remote lookup_error_msg embed
                  shape_error_msg job_description cv_text language w)
        <> inl (unsupported_language_error l)).
Proof.
  split.
  - intros Hl.
    destruct (score_cases lower remote lookup_error_msg embed shape_error_msg
                job_description cv_text language w)
      as [[Hb E] | [[Hp [_ E]] | [_ [Hin _]]]]; [| | contradiction];
      rewrite E; (split; [reflexivity |]); split; intros H.
    + destruct H as [Hj Hc]. destruct Hb; contradiction.
    + reflexivity.
    + reflexivity.
    + destruct Hp as [Hj Hc]. destruct H; contradiction.
  - intros Hl l H.
    destruct (score_cases lower remote lookup_error_msg embed shape_error_msg
                job_description cv_text language w)
      as [[_ E] | [[_ [Hout _]] | [_ [_ E]]]]; [| contradiction |];
      rewrite E in H.
    + unfold result in H; simpl in H. apply inl_inv in H.
      exact (empty_text_error_not_unsupported _ H).
    + destruct (get_stopwords remote lookup_error_msg language w)
        as [[[e|sw] w1] t1]; unfold result in H; simpl in H.
      * apply inl_inv in H. symmetry in H.
        exact (unsupported_not_wrapped _ _ H).
      * destruct (fst (compare_texts embed shape_error_msg _ _)) as [e|r];
          simpl in H; [| discriminate H].
        apply inl_inv in H. symmetry in H.
        exact (unsupported_not_wrapped _ _ H).
Qed.

Lemma unsupported_language_rejected_example :
  ~ In (py "xx") supported_codes
  /\ texts_present (py "Python developer") (py "Flask developer")
  /\ trace (compute_similarity_score ascii_lower None no_msg
              (embed_const [1%R]) no_shape_msg
              (py "Python developer") (py "Flask developer") (py "xx")
              installed) = []
  /\ result (compute_similarity_score ascii_lower None no_msg
               (embed_const [1%R]) no_shape_msg
               (py "Python developer") (py "Flask developer") (py "xx")
               installed)
     = inl (unsupported_language_error (py "xx")).
Proof.
  split; [exact xx_unsupported |]. split; [exact sample_texts_present |].
  destruct (proj1 (unsupported_language_rejected ascii_lower None no_msg
                     (embed_const [1%R]) no_shape_msg
                     (py "Python developer") (py "Flask developer")
                     (py "xx") installed) xx_unsupported)
    as [Ht [Hr _]].
  split; [exact Ht | exact (Hr sample_texts_present)].
Defined.

Lemma installed_stopwords (language : str) :
  get_stopwords None no_msg language installed
  = (inr (listed_words sample_corpus language), installed, []).
Proof. now apply get_stopwords_installed. Qed.

Lemma row_norm_zeros : row_norm [0%R; 0%R] = 0%R.
Proof.
  unfold row_norm. simpl.
  replace (0 * 0 + (0 * 0 + 0))%R with 0%R by ring. apply sqrt_0.
Qed.

Lemma row_norm_zero1 : row_norm [0%R] = 0%R.
Proof.
  unfold row_norm. simpl.
  replace (0 * 0 + 0)%R with 0%R by ring. apply sqrt_0.
Qed.

Lemma row_norm_one : row_norm [1%R] = 1%R.
Proof.
  unfold row_norm. simpl.
  replace (1 * 1 + 0)%R with 1%R by ring. apply sqrt_1.
Qed.

Lemma row_norm_minus_one : row_norm [(-1)%R] = 1%R.
Proof.
  unfold row_norm. simpl.
  replace (-1 * -1 + 0)%R with 1%R by ring. apply sqrt_1.
Qed.

Lemma handle_zeros_one : handle_zeros_in_scale 1 = 1%R.
Proof.
  unfold handle_zeros_in_scale. destruct (Req_dec_T 1 0); [lra | reflexivity].
Qed.

(** C2, as stated, fails: both embeddings are the zero row, and the
    call returns the score 0 instead of failing. *)
Lemma zero_embedding_gets_score_zero :
  texts_present (py "Python developer") (py "Flask developer")
  /\ In (py "en") supported_codes
  /\ row_norm [0%R; 0%R] = 0%R
  /\ result (compute_similarity_score ascii_lower None no_msg
               (embed_const [0%R; 0%R]) no_shape_msg
               (py "Python developer") (py "Flask developer") (py "en")
               installed)
     = inr 0%R.
Proof.
  split; [exact sample_texts_present |]. split; [exact en_supported |].
  split; [exact row_norm_zeros |].
  rewrite (score_with_vectors ascii_lower None no_msg
             (embed_const [0%R; 0%R]) no_shape_msg
             (py "Python developer") (py "Flask developer") (py "en")
             installed installed (listed_words sample_corpus (py "en")) []
             [0%R; 0%R] [0%R; 0%R]
             sample_texts_present en_supported (installed_stopwords _)
             eq_refl eq_refl eq_refl).
  rewrite result_of. f_equal.
  apply normalized_dot_zero_norm. left. exact row_norm_zeros.
Qed.

(** C2, amended.  For valid inputs (non-blank texts, supported language)
    whose two embeddings are rows of one positive length and of which at
    least one has zero L2 norm, [compute_similarity_score] does not fail
    and divides by nothing that is zero: [cosine_similarity] divides each
    row by its norm with a zero norm replaced by 1, and the score
    returned is 0.  The code has no error for this case. *)
Theorem zero_norm_embedding_scores_zero
    (lower : str -> str) (remote : option Corpus) (lookup_error_msg : str)
    (embed : str -> exn + vector) (shape_error_msg : nat -> nat -> str)
    (job_description cv_text language : str) (w w1 : World)
    (stop_words : list str) (t1 : list event)
    (job_vector cv_vector : vector) :
  texts_present job_description cv_text ->
  In language supported_codes ->
  get_stopwords remote lookup_error_msg language w
  = (inr stop_words, w1, t1) ->
  embed (cleaned_text lower stop_words (split job_description))
  = inr job_vector ->
  embed (cleaned_text lower stop_words (split cv_text)) = inr cv_vector ->
  length job_vector = length cv_vector ->
  length job_vector <> 0%nat ->
  row_norm job_vector = 0%R \/ row_norm cv_vector = 0%R ->
  result (compute_similarity_score lower remote lookup_error_msg embed
            shape_error_msg job_description cv_text language w)
  = inr 0%R
  /\ handle_zeros_in_scale (row_norm job_vector) <> 0%R
  /\ handle_zeros_in_scale (row_norm cv_vector) <> 0%R.
Proof.
  intros Hp Hl Hsw Hj Hc Hlen Hpos Hzero.
  split; [| split; apply handle_zeros_nonzero].
  rewrite (score_with_vectors lower remote lookup_error_msg embed
             shape_error_msg job_description cv_text language w w1
             stop_words t1 job_vector cv_vector Hp Hl Hsw Hj Hc
             (cosine_similarity_defined shape_error_msg job_vector
                cv_vector Hlen Hpos)).
  rewrite result_of. f_equal.
  now apply normalized_dot_zero_norm.
Qed.

Lemma zero_norm_embedding_scores_zero_example :
  texts_present (py "Python developer") (py "Flask developer")
  /\ In (py "en") supported_codes
  /\ (row_norm [0%R] = 0%R \/ row_norm [0%R] = 0%R)
  /\ result (compute_similarity_score ascii_lower None no_msg
               (embed_const [0%R]) no_shape_msg
               (py "Python developer") (py "Flask developer") (py "en")
               installed)
     = inr 0%R.
Proof.
  split; [exact sample_texts_present |]. split; [exact en_supported |].
  split; [left; exact row_norm_zero1 |].
  exact (proj1
           (zero_norm_embedding_scores_zero ascii_lower None no_msg
              (embed_const [0%R]) no_shape_msg
              (py "Python developer") (py "Flask developer") (py "en")
              installed installed (listed_words sample_corpus (py "en")) []
              [0%R] [0%R]
              sample_texts_present en_supported (installed_stopwords _)
              eq_refl eq_refl eq_refl (fun H => O_S 0 (eq_sym H))
              (or_introl row_norm_zero1))).
Defined.

Lemma stopword_texts_present : texts_present (py "the a") (py "in the").
Proof.
  split; intros H; apply not_truthy_strip in H; vm_compute in H;
    discriminate H.
Qed.

(** C3, as stated, fails: both texts are reduced to nothing by the
    stopword removal, the provider answers with the zero row, and the
    caller receives the score 0, not an error. *)
Lemma degenerate_input_is_not_an_error :
  cleaned_text ascii_lower (listed_words sample_corpus (py "en"))
    (split (py "the a")) = []
  /\ row_norm [0%R] = 0%R
  /\ result (compute_similarity_score ascii_lower None no_msg
               (embed_const [0%R]) no_shape_msg
               (py "the a") (py "in the") (py "en") installed)
     = inr 0%R.
Proof.
  split; [reflexivity |]. split; [exact row_norm_zero1 |].
  rewrite (score_with_vectors ascii_lower None no_msg
             (embed_const [0%R]) no_shape_msg
             (py "the a") (py "in the") (py "en")
             installed installed (listed_words sample_corpus (py "en")) []
             [0%R] [0%R]
             stopword_texts_present en_supported (installed_stopwords _)
             eq_refl eq_refl eq_refl).
  rewrite result_of. f_equal.
  apply normalized_dot_zero_norm. left. exact row_norm_zero1.
Qed.

(** C3, amended.  [compute_similarity_score] reports three failures to its
    caller, as pairwise different error values.  A blank text is reported
    as the empty-text [ValueError].  Non-blank texts with an unsupported
    language are reported as the unsupported-language [ValueError] (the
    same class, another message).  For non-blank texts and a supported
    language, the first step that raises (the stopword lookup, the
    embedding of the job description, the embedding of the CV, the
    comparison) is reported as an [Exception] whose message carries that
    step's exception, an embedding-provider error among them; when no step
    raises the score is returned, and it is 0 when an embedding has zero
    norm, which is not a failure.  So every failure is one of the three,
    none is turned into a score, and a score is returned only for
    non-blank texts and a supported language when the stopword lookup,
    both embedding calls and the comparison succeeded. *)
Theorem failures_are_distinct_errors
    (lower : str -> str) (remote : option Corpus) (lookup_error_msg : str)
    (embed : str -> exn + vector) (shape_error_msg : nat -> nat -> str)
    (job_description cv_text language : str) (w : World) :
  (blank job_description \/ blank cv_text ->
   result (compute_similarity_score lower remote lookup_error_msg embed
             shape_error_msg job_description cv_text language w)
   = inl empty_text_error)
  /\ (texts_present job_description cv_text ->
      ~ In language supported_codes ->
      result (compute_similarity_score lower remote lookup_error_msg embed
                shape_error_msg job_description cv_text language w)
      = inl (unsupported_language_error language))
  /\ (texts_present job_description cv_text ->
      In language supported_codes ->
      match get_stopwords remote lookup_error_msg language w with
      | (inl e, _, _) =>
          result (compute_similarity_score lower remote lookup_error_msg
                    embed shape_error_msg job_description cv_text language w)
          = inl (similarity_error e)
      | (inr stop_words, _, _) =>
          match
            embed (cleaned_text lower stop_words (split job_description))
          with
          | inl e =>
              result (compute_similarity_score lower remote lookup_error_msg
                        embed shape_error_msg job_description cv_text
                        language w)
              = inl (similarity_error e)
          | inr job_vector =>
              match embed (cleaned_text lower stop_words (split cv_text)) with
              | inl e =>
                  result (compute_similarity_score lower remote
                            lookup_error_msg embed shape_error_msg
                            job_description cv_text language w)
                  = inl (similarity_error e)
              | inr cv_vector =>
                  match
                    cosine_similarity shape_error_msg job_vector cv_vector
                  with
                  | inl e =>
                      result (compute_similarity_score lower remote
                                lookup_error_msg embed shape_error_msg
                                job_description cv_text language w)
                      = inl (similarity_error e)
                  | inr r =>
                      result (compute_similarity_score lower remote
                                lookup_error_msg embed shape_error_msg
                                job_description cv_text language w)
                      = inr r
                      /\ (row_norm job_vector = 0%R
                          \/ row_norm cv_vector = 0%R -> r = 0%R)
                  end
              end
          end
      end)
  /\ (forall l cause,
        empty_text_error <> unsupported_language_error l
        /\ empty_text_error <> similarity_error cause
        /\ unsupported_language_error l <> similarity_error cause)
  /\ (forall e,
        result (compute_similarity_score lower remote lookup_error_msg embed
                  shape_error_msg job_description cv_text language w)
        = inl e ->
        e = empty_text_error
        \/ e = unsupported_language_error language
        \/ exists cause, e = similarity_error cause)
  /\ (forall r,
        result (compute_similarity_score lower remote lookup_error_msg embed
                  shape_error_msg job_description cv_text language w)
        = inr r ->
        texts_present job_description cv_text
        /\ In language supported_codes
        /\ exists stop_words w1 t1 job_vector cv_vector,
             get_stopwords remote lookup_error_msg language w
             = (inr stop_words, w1, t1)
             /\ embed (cleaned_text lower stop_words (split job_description))
                = inr job_vector
             /\ embed (cleaned_text lower stop_words (split cv_text))
                = inr cv_vector
             /\ cosine_similarity shape_error_msg job_vector cv_vector
                = inr r).
Proof.
  split; [| split; [| split; [| split; [| split]]]].
  - intros Hb. now rewrite score_blank.
  - intros Hp Hl. rewrite score_unsupported;
      [reflexivity | assumption | now apply dict_in_unsupported].
  - intros Hp Hl.
    rewrite (score_run lower remote lookup_error_msg embed shape_error_msg
               job_description cv_text language w Hp
               (proj2 (dict_in_supported language) Hl)).
    destruct (get_stopwords remote lookup_error_msg language w)
      as [[[e|sw] w1] t1]; [apply result_of |].
    unfold compare_texts.
    destruct (embed (cleaned_text lower sw (split job_description)))
      as [e|jv]; [apply result_of |].
    destruct (embed (cleaned_text lower sw (split cv_text)))
      as [e|cv]; [apply result_of |].
    destruct (cosine_similarity shape_error_msg jv cv) as [e|r] eqn:Hcos;
      [apply result_of |].
    split; [apply result_of |].
    intros Hzero. apply cosine_similarity_value in Hcos as [-> _].
    now apply normalized_dot_zero_norm.
  - intros l cause. split; [| split].
    + apply empty_text_error_not_unsupported.
    + apply empty_text_error_not_wrapped.
    + apply unsupported_not_wrapped.
  - intros e. apply score_failure.
  - intros r H. now apply score_success in H.
Qed.

Lemma failures_are_distinct_errors_example :
  texts_present (py "Python developer") (py "Flask developer")
  /\ In (py "en") supported_codes
  /\ result (compute_similarity_score ascii_lower None no_msg embed_down
               no_shape_msg (py "Python developer") (py "Flask developer")
               (py "en") installed)
     = inl (similarity_error provider_down).
Proof.
  split; [exact sample_texts_present |]. split; [exact en_supported |].
  exact (proj1 (proj2 (proj2
           (failures_are_distinct_errors ascii_lower None no_msg embed_down
              no_shape_msg (py "Python developer") (py "Flask developer")
              (py "en") installed)))
           sample_texts_present en_supported).
Defined.

Lemma opposed_texts_present : texts_present (py "left") (py "right").
Proof.
  split; intros H; apply not_truthy_strip in H; vm_compute in H;
    discriminate H.
Qed.

(** C6: the code at the failing input.  The docstring of
    [compute_similarity_score] promises a score between 0.0 and 1.0, as
    the claim does; the code returns the cosine as it is: for valid texts
    whose embeddings are the opposed rows [1] and [-1], of norm 1, it
    returns -1. *)
Lemma opposed_embeddings_score_negative :
  texts_present (py "left") (py "right")
  /\ In (py "en") supported_codes
  /\ row_norm [1%R] <> 0%R /\ row_norm [(-1)%R] <> 0%R
  /\ result (compute_similarity_score ascii_lower None no_msg
               embed_opposed no_shape_msg
               (py "left") (py "right") (py "en") installed)
     = inr (-1)%R
  /\ ~ (0 <= -1 <= 1)%R.
Proof.
  split; [exact opposed_texts_present |]. split; [exact en_supported |].
  split; [rewrite row_norm_one; lra |].
  split; [rewrite row_norm_minus_one; lra |].
  split; [| lra].
  rewrite (score_with_vectors ascii_lower None no_msg
             embed_opposed no_shape_msg
             (py "left") (py "right") (py "en")
             installed installed (listed_words sample_corpus (py "en")) []
             [1%R] [(-1)%R]
             opposed_texts_present en_supported (installed_stopwords _)
             eq_refl eq_refl eq_refl).
  rewrite result_of. f_equal.
  rewrite dot_normalized, row_norm_one, row_norm_minus_one, handle_zeros_one.
  simpl. field.
Qed.

(** With floating-point values read as exact reals, every score
    [compute_similarity_score] returns lies in [-1, 1]; it is the cosine
    of the two embeddings and has the sign of their dot product.  (In
    floating point the value can leave this interval by a rounding
    error.) *)
Theorem score_between_minus_one_and_one
    (lower : str -> str) (remote : option Corpus) (lookup_error_msg : str)
    (embed : str -> exn + vector) (shape_error_msg : nat -> nat -> str)
    (job_description cv_text language : str) (w : World) (r : R) :
  result (compute_similarity_score lower remote lookup_error_msg embed
            shape_error_msg job_description cv_text language w) = inr r ->
  (-1 <= r <= 1)%R
  /\ exists stop_words w1 t1 job_vector cv_vector,
       get_stopwords remote lookup_error_msg language w
       = (inr stop_words, w1, t1)
       /\ embed (cleaned_text lower stop_words (split job_description))
          = inr job_vector
       /\ embed (cleaned_text lower stop_words (split cv_text))
          = inr cv_vector
       /\ (0 <= dot job_vector cv_vector -> 0 <= r <= 1)%R
       /\ (dot job_vector cv_vector < 0 -> r < 0)%R.
Proof.
  intros H. apply score_success in H
    as [_ [_ [sw [w1 [t1 [jv [cv [Hsw [Hj [Hc Hcos]]]]]]]]]].
  apply cosine_similarity_value in Hcos as [-> _].
  destruct (normalized_dot_range jv cv) as [Hrange [Hpos Hneg]].
  split; [exact Hrange |].
  exists sw, w1, t1, jv, cv.
  split; [assumption |]. split; [assumption |]. split; [assumption |].
  split.
  - intros Hd. split; [now apply Hpos | apply Hrange].
  - exact Hneg.
Qed.

Lemma score_between_minus_one_and_one_example :
  result (compute_similarity_score ascii_lower None no_msg
            (embed_const [1%R]) no_shape_msg
            (py "Python developer") (py "Flask developer") (py "en")
            installed)
  = inr (dot (normalize [1%R]) (normalize [1%R]))
  /\ (-1 <= dot (normalize [1%R]) (normalize [1%R]) <= 1)%R.
Proof.
  assert (H : result (compute_similarity_score ascii_lower None no_msg
                        (embed_const [1%R]) no_shape_msg
                        (py "Python developer") (py "Flask developer")
                        (py "en") installed)
              = inr (dot (normalize [1%R]) (normalize [1%R]))).
  { rewrite (score_with_vectors ascii_lower None no_msg
               (embed_const [1%R]) no_shape_msg
               (py "Python developer") (py "Flask developer") (py "en")
               installed installed (listed_words sample_corpus (py "en")) []
               [1%R] [1%R]
               sample_texts_present en_supported (installed_stopwords _)
               eq_refl eq_refl eq_refl).
    apply result_of. }
  split; [exact H |].
  exact (proj1
           (score_between_minus_one_and_one ascii_lower None no_msg
              (embed_const [1%R]) no_shape_msg
              (py "Python developer") (py "Flask developer") (py "en")
              installed _ H)).
Defined.

(** C7.  For all texts [a] and [b] and every language code, when
    [compute_similarity_score a b] returns a score then
    [compute_similarity_score b a] returns the same score; as this holds
    for both orders, the two calls agree whenever either succeeds.  (A
    call succeeds only for a supported language.) *)
Theorem score_symmetric
    (lower : str -> str) (remote : option Corpus) (lookup_error_msg : str)
    (embed : str -> exn + vector) (shape_error_msg : nat -> nat -> str)
    (a b language : str) (w : World) (r : R) :
  result (compute_similarity_score lower remote lookup_error_msg embed
            shape_error_msg a b language w) = inr r ->
  result (compute_similarity_score lower remote lookup_error_msg embed
            shape_error_msg b a language w) = inr r.
Proof.
  intros H. apply score_success in H
    as [[Ha Hb] [Hl [sw [w1 [t1 [va [vb [Hsw [Hea [Heb Hcos]]]]]]]]]].
  apply cosine_similarity_sym in Hcos.
  pose proof Hcos as Hval.
  apply cosine_similarity_value in Hval as [-> _].
  rewrite (score_with_vectors lower remote lookup_error_msg embed
             shape_error_msg b a language w w1 sw t1 vb va
             (conj Hb Ha) Hl Hsw Heb Hea Hcos).
  apply result_of.
Qed.

Lemma score_symmetric_example :
  result (compute_similarity_score ascii_lower None no_msg
            embed_opposed no_shape_msg
            (py "left") (py "right") (py "en") installed)
  = inr (-1)%R
  /\ result (compute_similarity_score ascii_lower None no_msg
               embed_opposed no_shape_msg
               (py "right") (py "left") (py "en") installed)
     = inr (-1)%R.
Proof.
  assert (H : result (compute_similarity_score ascii_lower None no_msg
                        embed_opposed no_shape_msg
                        (py "left") (py "right") (py "en") installed)
              = inr (-1)%R).
  { rewrite (score_with_vectors ascii_lower None no_msg
               embed_opposed no_shape_msg
               (py "left") (py "right") (py "en")
               installed installed (listed_words sample_corpus (py "en")) []
               [1%R] [(-1)%R]
               opposed_texts_present en_supported (installed_stopwords _)
               eq_refl eq_refl eq_refl).
    rewrite result_of. f_equal.
    rewrite dot_normalized, row_norm_one, row_norm_minus_one,
      handle_zeros_one.
    simpl. field. }
  split; [exact H |].
  exact (score_symmetric ascii_lower None no_msg embed_opposed no_shape_msg
           (py "left") (py "right") (py "en") installed (-1)%R H).
Defined.

(** ** Effects of a run *)

Lemma get_stopwords_effects (remote : option Corpus)
    (lookup_error_msg language : str) (w : World) :
  (trace (get_stopwords remote lookup_error_msg language w) = []
   \/ trace (get_stopwords remote lookup_error_msg language w)
      = [Download (py "stopwords")])
  /\ (nltk_data w <> None ->
      world_after (get_stopwords remote lookup_error_msg language w) = w
      /\ trace (get_stopwords remote lookup_error_msg language w) = [])
  /\ (forall e,
        result (get_stopwords remote lookup_error_msg language w) = inl e ->
        world_after (get_stopwords remote lookup_error_msg language w) = w).
Proof.
  destruct (nltk_data w) as [c|] eqn:Hw.
  - rewrite (get_stopwords_installed remote lookup_error_msg language w c Hw).
    repeat split; auto.
  - rewrite (get_stopwords_missing remote lookup_error_msg language w Hw).
    destruct remote as [c|]; (split; [right; reflexivity |]); split;
      try congruence; try reflexivity.
    intros e H. discriminate H.
Qed.


(** C8: the code at the failing input.  With the stopword corpus absent
    from the data directory and the download failing, the second
    [stopwords.fileids()] of [get_stopwords] raises [LookupError] outside
    any handler, for every language code, and the similarity request
    fails because of it. *)
Theorem get_stopwords_raises_without_corpus
    (lower : str -> str) (embed : str -> exn + vector)
    (shape_error_msg : nat -> nat -> str)
    (lookup_error_msg language : str) :
  get_stopwords None lookup_error_msg language not_installed
  = (inl (mk_exn LookupError lookup_error_msg), not_installed,
     [Download (py "stopwords")])
  /\ result (compute_similarity_score lower None lookup_error_msg embed
               shape_error_msg (py "Python developer")
               (py "Flask developer") (py "en") not_installed)
     = inl (similarity_error (mk_exn LookupError lookup_error_msg)).
Proof.
  split.
  - now rewrite get_stopwords_missing.
  - rewrite score_run;
      [| exact sample_texts_present | now apply dict_in_supported, en_supported].
    now rewrite get_stopwords_missing.
Qed.




(** ** The endpoint *)

Lemma bind_inr {A B : Type} (m : M A) (k : A -> M B) (w : World) (b : B) :
  result (bind m k w) = inr b ->
  exists a w1 t1, m w = (inr a, w1, t1) /\ result (k a w1) = inr b.
Proof.
  unfold bind, result.
  destruct (m w) as [[[e|a] w1] t1]; simpl; [discriminate |].
  intros H. exists a, w1, t1. split; [reflexivity |].
  destruct (k a w1) as [[r w2] t2]. exact H.
Qed.

Lemma missing_input_not_unsupported :
  missing_input_response <> unsupported_language_response.
Proof.
  intros H. apply (f_equal fst) in H. vm_compute in H. discriminate H.
Qed.

Lemma internal_error_not_unsupported :
  internal_error_response <> unsupported_language_response.
Proof.
  intros H. apply (f_equal snd) in H. discriminate H.
Qed.

Section EndpointOutcome.

Variable lower : str -> str.
Variable remote : option Corpus.
Variable lookup_error_msg : str.
Variable embed : str -> exn + vector.
Variable shape_error_msg : nat -> nat -> str.
Variable TEMP_DIR : str.
Variable path_exists : str -> bool.
Variable makedirs : str -> exn + unit.
Variable mkdtemp : str -> exn + str.
Variable uuid4 : str.
Variable file_save : FileStorage -> str -> exn + unit.
Variable pdf_pages : str -> exn + list (option str).
Variable docx_paragraphs : str -> exn + list str.
Variable read_utf8 : str -> exn + str.
Variable chat_completion : str -> str -> exn + str.
Variable round : R -> nat -> R.

Local Abbreviation endpoint :=
  (evaluate_cv_match_endpoint lower remote lookup_error_msg embed
     shape_error_msg TEMP_DIR path_exists makedirs mkdtemp uuid4 file_save
     pdf_pages docx_paragraphs read_utf8 chat_completion round).

(** What the endpoint answers: it never raises, and its answer is the
    missing-input 400 (only when an input is missing), the 500, or a 200
    with an evaluation (only for a supported language). *)
Lemma endpoint_outcome (request : Request) (w : World) :
  exists resp,
    result (endpoint request w) = inr resp
    /\ ((resp = missing_input_response
         /\ (file_truthy (files_get (files request) (py "cv_file")) = false
             \/ opt_truthy (form_get request (py "job_description")) = false))
        \/ resp = internal_error_response
        \/ (exists score evaluation,
              resp = (EvaluationBody score evaluation, 200)
              /\ In (lower (form_get_default request (py "language")
                              (py "en"))) supported_codes)).
Proof.
  unfold evaluate_cv_match_endpoint, try_except, form_get.
  destruct (files_get (files request) (py "cv_file")) as [f|] eqn:Hf;
    [| eexists; split; [reflexivity | left; split; [reflexivity | now left]]].
  destruct (dict_get (form request) (py "job_description")) as [jd|] eqn:Hjd;
    [| eexists; split;
       [reflexivity | left; split; [reflexivity | now right]]].
  destruct (negb (file_truthy (Some f)) || negb (opt_truthy (Some jd)))
    eqn:Hpresent.
  { eexists; split; [reflexivity |]. left. split; [reflexivity |].
    apply orb_true_iff in Hpresent as [H | H]; apply negb_true_iff in H; auto. }
  match goal with
  | |- context [match ?body w with _ => _ end] =>
      destruct (body w) as [[[e|resp] w1] t1] eqn:Hbody
  end.
  - eexists; split; [reflexivity |]. right; left. reflexivity.
  - exists resp. split; [reflexivity |]. right; right.
    assert (H : result
                  ((ensure_directory_exists path_exists makedirs TEMP_DIR ;;;
                    temp_dir <- lift (mkdtemp TEMP_DIR) ;;
                    temp_file_path <-
                      save_temporary_file path_exists makedirs uuid4
                        file_save f temp_dir ;;
                    cv_text <-
                      extract_text lower pdf_pages docx_paragraphs read_utf8
                        temp_file_path ;;
                    similarity_score <-
                      compute_similarity_score lower remote lookup_error_msg
                        embed shape_error_msg jd cv_text
                        (lower (form_get_default request (py "language")
                                  (py "en"))) ;;
                    match
                      get_language_name
                        (lower (form_get_default request (py "language")
                                  (py "en")))
                    with
                    | Some language_name =>
                        if negb (truthy language_name)
                        then ret unsupported_language_response
                        else
                          evaluation <-
                            evaluate_cv_with_openai chat_completion jd
                              cv_text language_name ;;
                          ret (EvaluationBody (round similarity_score 2)
                                 evaluation, 200)
                    | None => ret unsupported_language_response
                    end) w) = inr resp).
    { rewrite Hbody. reflexivity. }
    clear Hbody.
    apply bind_inr in H as (u & wa & ta & _ & H).
    apply bind_inr in H as (temp_dir & wb & tb & _ & H).
    apply bind_inr in H as (path & wc & tc & _ & H).
    apply bind_inr in H as (cv_text & wd & td & _ & H).
    apply bind_inr in H as (s & we & te & Hscore & H).
    assert (Hs : result
                   (compute_similarity_score lower remote lookup_error_msg
                      embed shape_error_msg jd cv_text
                      (lower (form_get_default request (py "language")
                                (py "en"))) wd) = inr s)
      by (now rewrite Hscore).
    apply score_success in Hs as [_ [Hl _]].
    destruct (supported_language_has_name _ Hl) as [name [Hname Htruthy]].
    rewrite Hname, Htruthy in H. simpl in H.
    apply bind_inr in H as (ev & wf & tf & _ & H).
    unfold ret, result in H; simpl in H. inversion H; subst.
    exists (round s 2), ev. split; [reflexivity | assumption].
Qed.

End EndpointOutcome.

(** C10.  In [/evaluate_cv_match] the similarity score is computed before
    the language code is looked up.  So the endpoint never answers with
    its 400 "Unsupported language" response, whatever the request: a
    request that reaches the lookup has a supported language.  And for a
    request that carries a CV file and a job description and whose
    (lowercased) language code is unsupported, an exception is raised no
    later than in [compute_similarity_score], and the answer is the
    generic 500 "Internal server error." response. *)
Theorem unsupported_language_branch_unreachable
    (lower : str -> str) (remote : option Corpus) (lookup_error_msg : str)
    (embed : str -> exn + vector) (shape_error_msg : nat -> nat -> str)
    (TEMP_DIR : str) (path_exists : str -> bool)
    (makedirs : str -> exn + unit) (mkdtemp : str -> exn + str)
    (uuid4 : str) (file_save : FileStorage -> str -> exn + unit)
    (pdf_pages : str -> exn + list (option str))
    (docx_paragraphs : str -> exn + list str)
    (read_utf8 : str -> exn + str)
    (chat_completion : str -> str -> exn + str) (round : R -> nat -> R)
    (request : Request) (w : World) :
  result (evaluate_cv_match_endpoint lower remote lookup_error_msg embed
            shape_error_msg TEMP_DIR path_exists makedirs mkdtemp uuid4
            file_save pdf_pages docx_paragraphs read_utf8 chat_completion
            round request w)
  <> inr unsupported_language_response
  /\ (~ In (lower (form_get_default request (py "language") (py "en")))
          supported_codes ->
      file_truthy (files_get (files request) (py "cv_file")) = true ->
      opt_truthy (form_get request (py "job_description")) = true ->
      result (evaluate_cv_match_endpoint lower remote lookup_error_msg embed
                shape_error_msg TEMP_DIR path_exists makedirs mkdtemp uuid4
                file_save pdf_pages docx_paragraphs read_utf8
                chat_completion round request w)
      = inr internal_error_response).
Proof.
  destruct (endpoint_outcome lower remote lookup_error_msg embed
              shape_error_msg TEMP_DIR path_exists makedirs mkdtemp uuid4
              file_save pdf_pages docx_paragraphs read_utf8 chat_completion
              round request w)
    as [resp [Hresp Hcases]].
  rewrite Hresp. split.
  - intros H. injection H as H. subst resp.
    destruct Hcases as [[Hm _] | [Hi | [s [ev [He _]]]]].
    + symmetry in Hm. exact (missing_input_not_unsupported Hm).
    + symmetry in Hi. exact (internal_error_not_unsupported Hi).
    + discriminate He.
  - intros Hl Hfile Hjd.
    destruct Hcases as [[_ [Hm | Hm]] | [Hi | [s [ev [_ Hin]]]]].
    + rewrite Hfile in Hm. discriminate Hm.
    + rewrite Hjd in Hm. discriminate Hm.
    + now rewrite Hi.
    + contradiction.
Qed.

Lemma unsupported_language_branch_unreachable_example :
  ~ In (ascii_lower (form_get_default sample_request (py "language")
                       (py "en"))) supported_codes
  /\ file_truthy (files_get (files sample_request) (py "cv_file")) = true
  /\ opt_truthy (form_get sample_request (py "job_description")) = true
  /\ result (evaluate_cv_match_endpoint ascii_lower None no_msg
               (embed_const [1%R]) no_shape_msg sample_dir always_exists
               makedirs_ok mkdtemp_ok sample_uuid save_ok no_pages
               no_paragraphs read_cv chat_ok round_id sample_request
               installed)
     = inr internal_error_response.
Proof.
  assert (Hl : ~ In (ascii_lower (form_get_default sample_request
                                    (py "language") (py "en")))
                   supported_codes).
  { apply dict_in_unsupported. reflexivity. }
  split; [exact Hl |]. split; [reflexivity |]. split; [reflexivity |].
  exact (proj2
           (unsupported_language_branch_unreachable ascii_lower None no_msg
              (embed_const [1%R]) no_shape_msg sample_dir always_exists
              makedirs_ok mkdtemp_ok sample_uuid save_ok no_pages
              no_paragraphs read_cv chat_ok round_id sample_request
              installed)
           Hl eq_refl eq_refl).
Defined.

(** The same request with a supported language is answered with 200: the
    lookup after the score is reached, and passed. *)
Example supported_language_is_evaluated :
  result (evaluate_cv_match_endpoint ascii_lower None no_msg
            (embed_const [1%R]) no_shape_msg sample_dir always_exists
            makedirs_ok mkdtemp_ok sample_uuid save_ok no_pages
            no_paragraphs read_cv chat_ok round_id
            (mk_request
               [(py "job_description", py "Python developer");
                (py "language", py "EN")]
               [(py "cv_file", mk_file (py "cv.txt") [])])
            installed)
  = inr (EvaluationBody (dot (normalize [1%R]) (normalize [1%R]))
           (py "Good match."), 200).
Proof. reflexivity. Qed.

(** * Further properties of the code *)

(** ** [rfind] and [splitext] *)

Lemma rfind_from_absent (c : char) (s : str) (i : Z) :
  ~ In c s -> rfind_from i c s = (-1)%Z.
Proof.
  revert i; induction s as [|x s IH]; intros i H; simpl; [reflexivity |].
  rewrite IH by (intros Hin; apply H; now right). simpl.
  destruct (N.eqb x c) eqn:E; [| reflexivity].
  apply N.eqb_eq in E. exfalso. apply H. now left.
Qed.

Lemma rfind_from_range (c : char) (s : str) (i : Z) :
  (0 <= i)%Z ->
  rfind_from i c s = (-1)%Z
  \/ (i <= rfind_from i c s < i + Z.of_nat (length s))%Z.
Proof.
  revert i; induction s as [|x s IH]; intros i Hi; simpl length;
    [left; reflexivity |].
  simpl rfind_from. destruct (IH (i + 1)%Z ltac:(lia)) as [E | E].
  - rewrite E. simpl. destruct (N.eqb x c); [right; lia | left; reflexivity].
  - destruct (0 <=? rfind_from (i + 1) c s)%Z eqn:Hr; [right; lia |].
    apply Z.leb_gt in Hr. lia.
Qed.

Lemma rfind_from_app_absent (c : char) (s t : str) (i : Z) :
  (0 <= i)%Z -> ~ In c t -> rfind_from i c (s ++ t) = rfind_from i c s.
Proof.
  intros Hi Ht. revert i Hi; induction s as [|x s IH]; intros i Hi; simpl.
  - now apply rfind_from_absent.
  - now rewrite IH by lia.
Qed.

Lemma rfind_from_last (c : char) (pre post : str) (i : Z) :
  (0 <= i)%Z -> ~ In c post ->
  rfind_from i c (pre ++ c :: post) = (i + Z.of_nat (length pre))%Z.
Proof.
  intros Hi Hpost. revert i Hi; induction pre as [|x pre IH]; intros i Hi.
  - simpl. rewrite (rfind_from_absent c post (i + 1) Hpost). simpl.
    rewrite N.eqb_refl. lia.
  - simpl app. simpl rfind_from. rewrite IH by lia.
    assert (H : (0 <=? i + 1 + Z.of_nat (length pre))%Z = true)
      by (apply Z.leb_le; lia).
    rewrite H. simpl length. lia.
Qed.

Lemma last_occurrence (c : char) (l : str) :
  In c l -> exists pre post, l = pre ++ c :: post /\ ~ In c post.
Proof.
  induction l as [|x l IH]; intros H; [contradiction |].
  destruct (in_dec N.eq_dec c l) as [Hin | Hout].
  - destruct (IH Hin) as [pre [post [-> Hpost]]].
    exists (x :: pre), post. split; [reflexivity | assumption].
  - destruct H as [-> | H]; [| contradiction].
    exists [], l. split; [reflexivity | assumption].
Qed.

Lemma rfind_from_present (c : char) (s : str) (i : Z) :
  (0 <= i)%Z -> In c s -> (i <= rfind_from i c s)%Z.
Proof.
  intros Hi H. apply last_occurrence in H as [pre [post [-> Hpost]]].
  rewrite rfind_from_last by assumption. lia.
Qed.

Lemma rfind_from_found (c : char) (s : str) (i : Z) :
  (0 <= i)%Z -> rfind_from i c s <> (-1)%Z ->
  exists pre post,
    s = pre ++ c :: post /\ ~ In c post
    /\ rfind_from i c s = (i + Z.of_nat (length pre))%Z.
Proof.
  intros Hi H.
  destruct (in_dec N.eq_dec c s) as [Hin | Hout].
  - apply last_occurrence in Hin as [pre [post [-> Hpost]]].
    exists pre, post. split; [reflexivity |]. split; [assumption |].
    now apply rfind_from_last.
  - exfalso. apply H. now apply rfind_from_absent.
Qed.

Lemma splitext_concat (p : str) : fst (splitext p) ++ snd (splitext p) = p.
Proof.
  unfold splitext.
  destruct ((rfind SEP p <? rfind EXTSEP p)%Z && _); simpl;
    [apply firstn_skipn | apply app_nil_r].
Qed.

Lemma sep_not_extsep : SEP <> EXTSEP.
Proof. discriminate. Qed.

Lemma get_file_suffix_shape (p : str) :
  get_file_suffix p = []
  \/ exists e, get_file_suffix p = EXTSEP :: e
               /\ ~ In EXTSEP e /\ ~ In SEP e.
Proof.
  unfold get_file_suffix, splitext.
  destruct ((rfind SEP p <? rfind EXTSEP p)%Z && _) eqn:Hc; simpl;
    [| now left].
  right. apply andb_true_iff in Hc as [Hlt _]. apply Z.ltb_lt in Hlt.
  unfold rfind in *.
  destruct (rfind_from_range SEP p 0 ltac:(lia)) as [Hs | Hs];
    (destruct (rfind_from_found EXTSEP p 0 ltac:(lia) ltac:(lia))
       as [pre [post [Hp [Hpost Hdot]]]]);
    rewrite Hdot; rewrite Z.add_0_l, Nat2Z.id;
    exists post; subst p; rewrite skipn_app, skipn_all, Nat.sub_diag;
    (split; [reflexivity |]); (split; [assumption |]);
    intros Hin; apply last_occurrence in Hin as [a [b [-> Hb]]];
    rewrite Hdot in Hlt;
    replace (pre ++ EXTSEP :: a ++ SEP :: b)
      with ((pre ++ EXTSEP :: a) ++ SEP :: b) in Hlt
      by (rewrite <- app_assoc; reflexivity);
    rewrite rfind_from_last in Hlt by (assumption || lia);
    rewrite length_app in Hlt; simpl in Hlt; lia.
Qed.

Lemma sep_index (d t : str) :
  d = [] \/ (exists d', d = d' ++ [SEP]) ->
  ~ In SEP t ->
  rfind SEP (d ++ t) = (Z.of_nat (length d) - 1)%Z.
Proof.
  intros [-> | [d' ->]] Ht; unfold rfind.
  - simpl. now apply rfind_from_absent.
  - rewrite <- app_assoc. simpl app.
    rewrite rfind_from_last by (assumption || lia).
    rewrite length_app. simpl. lia.
Qed.

(** The extension of a path whose last component is a plain name
    followed by an extension is that extension. *)
Lemma get_file_suffix_named (d u ext : str) :
  d = [] \/ (exists d', d = d' ++ [SEP]) ->
  plain_name u ->
  ext = [] \/ (exists e, ext = EXTSEP :: e /\ ~ In EXTSEP e /\ ~ In SEP e) ->
  get_file_suffix (d ++ u ++ ext) = ext.
Proof.
  intros Hd [Hu [Hudot Husep]] Hext.
  unfold get_file_suffix, splitext.
  assert (Hsep : rfind SEP (d ++ u ++ ext) = (Z.of_nat (length d) - 1)%Z).
  { apply sep_index; [assumption |].
    intros Hin. apply in_app_or in Hin as [Hin | Hin]; [contradiction |].
    destruct Hext as [-> | [e [-> [_ He]]]]; [contradiction |].
    destruct Hin as [Hin | Hin]; [| contradiction].
    symmetry in Hin. exact (sep_not_extsep Hin). }
  rewrite Hsep.
  destruct Hext as [-> | [e [-> [Hedot Hesep]]]].
  - assert (Hdot : (rfind EXTSEP (d ++ u ++ []) < Z.of_nat (length d))%Z).
    { unfold rfind. rewrite app_nil_r.
      rewrite rfind_from_app_absent by (assumption || lia).
      destruct Hd as [-> | [d' ->]]; [simpl; lia |].
      rewrite rfind_from_app_absent
        by (try lia; intros [H | []]; exact (sep_not_extsep H)).
      rewrite length_app. simpl.
      destruct (rfind_from_range EXTSEP d' 0 ltac:(lia)) as [E | E]; lia. }
    assert (Hc : (Z.of_nat (length d) - 1 <? rfind EXTSEP (d ++ u ++ []))%Z
                 = false) by (apply Z.ltb_ge; lia).
    rewrite Hc. reflexivity.
  - assert (Hdot : rfind EXTSEP (d ++ u ++ EXTSEP :: e)
                   = Z.of_nat (length d + length u)).
    { unfold rfind.
      replace (d ++ u ++ EXTSEP :: e) with ((d ++ u) ++ EXTSEP :: e)
        by (rewrite <- app_assoc; reflexivity).
      rewrite rfind_from_last by (assumption || lia).
      rewrite length_app. lia. }
    rewrite Hdot.
    assert (Hc : (Z.of_nat (length d) - 1 <? Z.of_nat (length d + length u))%Z
                 = true) by (apply Z.ltb_lt; lia).
    rewrite Hc. simpl andb.
    assert (Hslice : slice (d ++ u ++ EXTSEP :: e)
                       (Z.of_nat (length d) - 1 + 1)
                       (Z.of_nat (length d + length u)) = u).
    { unfold slice.
      replace (Z.of_nat (length d) - 1 + 1)%Z with (Z.of_nat (length d))
        by lia.
      replace (Z.of_nat (length d + length u) - Z.of_nat (length d))%Z
        with (Z.of_nat (length u)) by lia.
      rewrite !Nat2Z.id, skipn_app, skipn_all, Nat.sub_diag. simpl.
      rewrite firstn_app, firstn_all, Nat.sub_diag. simpl.
      apply app_nil_r. }
    rewrite Hslice.
    assert (Hex : existsb (fun c => negb (N.eqb c EXTSEP)) u = true).
    { destruct u as [|x u]; [congruence |]. simpl.
      destruct (N.eqb x EXTSEP) eqn:Ex; [| reflexivity].
      apply N.eqb_eq in Ex. exfalso. apply Hudot. now left. }
    rewrite Hex. simpl.
    rewrite Nat2Z.id.
    replace (d ++ u ++ EXTSEP :: e) with ((d ++ u) ++ EXTSEP :: e)
      by (rewrite <- app_assoc; reflexivity).
    rewrite <- length_app, skipn_app, skipn_all, Nat.sub_diag. reflexivity.
Qed.

Lemma startswith_char (x c : char) (s : str) :
  startswith (x :: s) [c] = N.eqb c x.
Proof. simpl. destruct s; apply andb_true_r. Qed.

Lemma path_join_plain (a u ext : str) :
  plain_name u ->
  exists d, path_join a (u ++ ext) = d ++ u ++ ext
            /\ (d = [] \/ exists d', d = d' ++ [SEP])
            /\ (path_join a (u ++ ext) = a ++ u ++ ext
                \/ path_join a (u ++ ext) = a ++ [SEP] ++ u ++ ext).
Proof.
  intros [Hu [_ Husep]]. unfold path_join.
  destruct u as [|x u]; [congruence |].
  change ((x :: u) ++ ext) with (x :: u ++ ext).
  rewrite startswith_char.
  assert (Hx : N.eqb SEP x = false).
  { apply N.eqb_neq. intros E. apply Husep. now left. }
  rewrite Hx.
  destruct a as [|y a].
  - exists []. split; [reflexivity |]. split; [now left | now left].
  - change (negb (truthy (y :: a))) with false. rewrite orb_false_l.
    destruct (rev (y :: a)) as [|l r] eqn:Hrev.
    + apply (f_equal (@length char)) in Hrev. rewrite length_rev in Hrev.
      discriminate Hrev.
    + rewrite startswith_char. destruct (N.eqb SEP l) eqn:El.
      * apply N.eqb_eq in El. subst l.
        exists (y :: a). split; [reflexivity |]. split; [| now left].
        right. exists (rev r).
        rewrite <- (rev_involutive (y :: a)), Hrev. reflexivity.
      * exists ((y :: a) ++ [SEP]). split.
        { rewrite <- !app_assoc. reflexivity. }
        split; [right; now exists (y :: a) | now right].
Qed.

(** X1.  [get_file_suffix] returns a suffix of the name it is given.
    That suffix is empty or is a dot followed by characters that are
    neither dots nor slashes; it is empty for a name without a dot. *)
Theorem get_file_suffix_is_extension (name : str) :
  (exists root, name = root ++ get_file_suffix name)
  /\ (get_file_suffix name = []
      \/ exists e, get_file_suffix name = EXTSEP :: e
                   /\ ~ In EXTSEP e /\ ~ In SEP e)
  /\ (~ In EXTSEP name -> get_file_suffix name = []).
Proof.
  split; [| split].
  - exists (fst (splitext name)). symmetry. apply splitext_concat.
  - apply get_file_suffix_shape.
  - intros Hdot.
    destruct (get_file_suffix_shape name) as [E | [e [E _]]];
      [assumption |].
    exfalso. apply Hdot.
    rewrite <- (splitext_concat name). apply in_or_app. right.
    fold (get_file_suffix name). rewrite E. now left.
Qed.

Lemma get_file_suffix_is_extension_example :
  ~ In EXTSEP (py "resume") /\ get_file_suffix (py "resume") = [].
Proof.
  assert (H : ~ In EXTSEP (py "resume")).
  { intros H. vm_compute in H. intuition discriminate. }
  split; [exact H |].
  exact (proj2 (proj2 (get_file_suffix_is_extension (py "resume"))) H).
Defined.

Lemma save_temporary_file_run (path_exists : str -> bool)
    (makedirs : str -> exn + unit) (uuid4 : str)
    (file_save : FileStorage -> str -> exn + unit)
    (file : FileStorage) (temp_dir path : str) (w w1 : World)
    (t1 : list event) :
  save_temporary_file path_exists makedirs uuid4 file_save file temp_dir w
  = (inr path, w1, t1) ->
  path = path_join temp_dir (uuid4 ++ get_file_suffix (filename file))
  /\ w1 = w /\ t1 = [].
Proof.
  unfold save_temporary_file, ensure_directory_exists, bind, lift, ret.
  destruct (path_exists temp_dir); simpl.
  - destruct (file_save file _) as [e|[]]; simpl; intros H; inversion H.
    auto.
  - destruct (makedirs temp_dir) as [e|[]]; simpl;
      [intros H; inversion H |].
    destruct (file_save file _) as [e|[]]; simpl; intros H; inversion H.
    auto.
Qed.

Lemma saved_path_suffix (path_exists : str -> bool)
    (makedirs : str -> exn + unit) (uuid4 : str)
    (file_save : FileStorage -> str -> exn + unit)
    (file : FileStorage) (temp_dir path : str) (w w1 : World)
    (t1 : list event) :
  plain_name uuid4 ->
  save_temporary_file path_exists makedirs uuid4 file_save file temp_dir w
  = (inr path, w1, t1) ->
  get_file_suffix path = get_file_suffix (filename file).
Proof.
  intros Hu H. apply save_temporary_file_run in H as [-> _].
  destruct (path_join_plain temp_dir uuid4
              (get_file_suffix (filename file)) Hu) as [d [Hd [Hform _]]].
  rewrite Hd. apply get_file_suffix_named; try assumption.
  apply get_file_suffix_shape.
Qed.

(** X2.  When the name of the saved copy (the text of a UUID) is not
    empty and has no dot and no slash, the path [save_temporary_file]
    returns has the extension of the uploaded file's name, and saving
    records no outside call of the traced kinds. *)
Theorem save_temporary_file_keeps_suffix (path_exists : str -> bool)
    (makedirs : str -> exn + unit) (uuid4 : str)
    (file_save : FileStorage -> str -> exn + unit)
    (file : FileStorage) (temp_dir path : str) (w w1 : World)
    (t1 : list event) :
  plain_name uuid4 ->
  save_temporary_file path_exists makedirs uuid4 file_save file temp_dir w
  = (inr path, w1, t1) ->
  get_file_suffix path = get_file_suffix (filename file)
  /\ (path = temp_dir ++ uuid4 ++ get_file_suffix (filename file)
      \/ path = temp_dir ++ [SEP] ++ uuid4
                ++ get_file_suffix (filename file))
  /\ t1 = [].
Proof.
  intros Hu H. apply save_temporary_file_run in H as [-> [_ ->]].
  destruct (path_join_plain temp_dir uuid4
              (get_file_suffix (filename file)) Hu)
    as [d [Hd [Hform Hshape]]].
  split; [| split; [exact Hshape | reflexivity]].
  rewrite Hd. apply get_file_suffix_named; try assumption.
  apply get_file_suffix_shape.
Qed.

Lemma sample_uuid_plain : plain_name sample_uuid.
Proof.
  split; [discriminate |].
  split; intros H; vm_compute in H; intuition discriminate.
Qed.

Lemma save_temporary_file_keeps_suffix_example :
  plain_name sample_uuid
  /\ save_temporary_file always_exists makedirs_ok sample_uuid save_ok
       (mk_file (py "my.CV.PDF") []) (py "/tmp/t1") installed
     = (inr (py "/tmp/t1/0b1d.PDF"), installed, [])
  /\ get_file_suffix (py "/tmp/t1/0b1d.PDF") = py ".PDF".
Proof.
  split; [exact sample_uuid_plain |]. split; [reflexivity |].
  exact (proj1
           (save_temporary_file_keeps_suffix always_exists makedirs_ok
              sample_uuid save_ok (mk_file (py "my.CV.PDF") [])
              (py "/tmp/t1") (py "/tmp/t1/0b1d.PDF") installed installed []
              sample_uuid_plain eq_refl)).
Defined.

(** ** Tokens, joining and trimming *)

Lemma tokenization_tokens (s : str) (toks : list str) :
  tokenization s toks -> Forall (fun t => t <> [] /\ solid t) toks.
Proof.
  induction 1; constructor; auto.
Qed.

Lemma space_is_space : isspace 32%N = true.
Proof. reflexivity. Qed.

Lemma join_tokenization (toks : list str) :
  Forall (fun t => t <> [] /\ solid t) toks ->
  tokenization (join (py " ") toks) toks.
Proof.
  induction 1 as [|t toks [Ht Hs] _ IH].
  - apply tok_done. constructor.
  - destruct toks as [|t' toks].
    + assert (Hw : tokenization ([] ++ t ++ []) [t]).
      { apply tok_word;
          [constructor | assumption | assumption | exact I |].
        apply tok_done. constructor. }
      simpl in Hw. rewrite app_nil_r in Hw. exact Hw.
    + change (join (py " ") (t :: t' :: toks))
        with (t ++ 32%N :: join (py " ") (t' :: toks)).
      apply (tok_word [] t (32%N :: join (py " ") (t' :: toks)));
        [constructor | assumption | assumption | exact space_is_space |].
      apply tokenization_space; [exact space_is_space | exact IH].
Qed.

Lemma split_join (toks : list str) :
  Forall (fun t => t <> [] /\ solid t) toks ->
  split (join (py " ") toks) = toks.
Proof.
  intros H. symmetry. apply tokenization_unique. now apply join_tokenization.
Qed.

Lemma split_nil_iff (s : str) : split s = [] <-> blank s.
Proof.
  split; intros H.
  - pose proof (split_tokenization s) as Ht. rewrite H in Ht.
    inversion Ht. assumption.
  - symmetry. apply tokenization_unique. now apply tok_done.
Qed.

Lemma filter_idempotent {A : Type} (f : A -> bool) (l : list A) :
  filter f (filter f l) = filter f l.
Proof.
  induction l as [|x l IH]; simpl; [reflexivity |].
  destruct (f x) eqn:E; simpl; [rewrite E, IH; reflexivity | exact IH].
Qed.

Lemma Forall_filter {A : Type} (P : A -> Prop) (f : A -> bool) (l : list A) :
  Forall P l -> Forall P (filter f l).
Proof.
  induction 1 as [|x l Hx _ IH]; simpl; [constructor |].
  destruct (f x); [constructor; assumption | assumption].
Qed.

Lemma cleaned_text_tokens (lower : str -> str) (stop_words : list str)
    (text : str) :
  split (cleaned_text lower stop_words (split text))
  = filter (fun tok => negb (contains stop_words (lower tok))) (split text).
Proof.
  unfold cleaned_text. apply split_join. apply Forall_filter.
  apply (tokenization_tokens text). apply split_tokenization.
Qed.

Lemma lstrip_fixed (s : str) :
  lstrip s = s <-> s = [] \/ exists c r, s = c :: r /\ isspace c = false.
Proof.
  destruct s as [|c r]; simpl.
  - split; auto.
  - destruct (isspace c) eqn:E.
    + split.
      * intros H. exfalso.
        assert (Hlen : (length (lstrip r) <= length r)%nat).
        { clear. induction r as [|x r IH]; simpl; [lia |].
          destruct (isspace x); simpl; lia. }
        rewrite H in Hlen. simpl in Hlen. lia.
      * intros [H | [c' [r' [H Hc]]]]; [discriminate |].
        inversion H; subst. congruence.
    + split; [| reflexivity]. intros _. right. now exists c, r.
Qed.

Lemma lstrip_lstrip (s : str) : lstrip (lstrip s) = lstrip s.
Proof.
  induction s as [|c s IH]; simpl; [reflexivity |].
  destruct (isspace c) eqn:E; [exact IH |]. simpl. now rewrite E.
Qed.

Lemma lstrip_keeps_last (x : str) (c : char) :
  isspace c = false -> exists z, lstrip (x ++ [c]) = z ++ [c].
Proof.
  intros Hc. induction x as [|y x IH]; simpl.
  - rewrite Hc. now exists [].
  - destruct (isspace y); [exact IH |]. now exists (y :: x).
Qed.

Lemma strip_lstrip_fixed (s : str) : lstrip (strip s) = strip s.
Proof.
  unfold strip, rstrip.
  destruct (lstrip s) as [|c r] eqn:Hl; [reflexivity |].
  assert (Hc : isspace c = false).
  { pose proof (lstrip_lstrip s) as H. rewrite Hl in H.
    apply lstrip_fixed in H as [H | [c' [r' [H Hc]]]]; [discriminate |].
    inversion H; subst. assumption. }
  simpl rev. destruct (lstrip_keeps_last (rev r) c Hc) as [z ->].
  rewrite rev_app_distr. simpl. now rewrite Hc.
Qed.

Lemma strip_strip (s : str) : strip (strip s) = strip s.
Proof.
  unfold strip at 1. rewrite strip_lstrip_fixed.
  unfold rstrip. unfold strip at 1. unfold rstrip.
  rewrite rev_involutive, lstrip_lstrip. reflexivity.
Qed.

(** ** More about the scorer *)

(** X3.  [preprocess_text] is idempotent: cleaning a cleaned text again,
    for the same language, returns it unchanged. *)
Theorem preprocess_text_idempotent
    (lower : str -> str) (remote : option Corpus)
    (lookup_error_msg text language cleaned : str) (w w1 : World)
    (t1 : list event) :
  preprocess_text lower remote lookup_error_msg text language w
  = (inr cleaned, w1, t1) ->
  preprocess_text lower remote lookup_error_msg cleaned language w1
  = (inr cleaned, w1, []).
Proof.
  rewrite !preprocess_text_run.
  destruct (get_stopwords remote lookup_error_msg language w)
    as [[[e|sw] w2] t2] eqn:Hsw; intros H; inversion H; subst.
  rewrite (get_stopwords_again remote lookup_error_msg language w w1 sw t1
             Hsw).
  f_equal. f_equal. f_equal.
  unfold cleaned_text at 1. rewrite cleaned_text_tokens, filter_idempotent.
  reflexivity.
Qed.

Lemma preprocess_text_idempotent_example :
  preprocess_text ascii_lower None no_msg (py "The Cat in a  Hat")
    (py "en") installed
  = (inr (py "Cat Hat"), installed, [])
  /\ preprocess_text ascii_lower None no_msg (py "Cat Hat") (py "en")
       installed
     = (inr (py "Cat Hat"), installed, []).
Proof.
  split; [reflexivity |].
  exact (preprocess_text_idempotent ascii_lower None no_msg
           (py "The Cat in a  Hat") (py "en") (py "Cat Hat")
           installed installed [] eq_refl).
Defined.

Lemma texts_present_tokens (a a' b b' : str) :
  split a = split a' -> split b = split b' ->
  texts_present a b -> texts_present a' b'.
Proof.
  intros Ha Hb [H1 H2].
  split; intros H; apply split_nil_iff in H.
  - apply H1. apply split_nil_iff. congruence.
  - apply H2. apply split_nil_iff. congruence.
Qed.

(** X4.  The outcome of [compute_similarity_score] depends on the two
    texts only through their whitespace-separated tokens: texts with the
    same tokens (reflowed, re-indented, padded) give the same result, the
    same outside calls and the same final state. *)
Theorem score_depends_on_tokens
    (lower : str -> str) (remote : option Corpus) (lookup_error_msg : str)
    (embed : str -> exn + vector) (shape_error_msg : nat -> nat -> str)
    (a a' b b' language : str) (w : World) :
  split a = split a' -> split b = split b' ->
  compute_similarity_score lower remote lookup_error_msg embed
    shape_error_msg a b language w
  = compute_similarity_score lower remote lookup_error_msg embed
      shape_error_msg a' b' language w.
Proof.
  intros Ha Hb.
  destruct (score_cases lower remote lookup_error_msg embed shape_error_msg
              a b language w)
    as [[Hblank E] | [[Hp [Hl E]] | [Hp [Hl E]]]]; rewrite E.
  - symmetry. apply score_blank.
    destruct Hblank as [H | H]; apply split_nil_iff in H;
      [left | right]; apply split_nil_iff; congruence.
  - symmetry. apply score_unsupported.
    + now apply (texts_present_tokens a a' b b').
    + now apply dict_in_unsupported.
  - rewrite (score_run lower remote lookup_error_msg embed shape_error_msg
               a' b' language w
               (texts_present_tokens a a' b b' Ha Hb Hp)
               (proj2 (dict_in_supported language) Hl)).
    now rewrite Ha, Hb.
Qed.

Lemma score_depends_on_tokens_example :
  split (py "  Python   developer ") = split (py "Python developer")
  /\ split (py "Flask developer  ") = split (py "Flask developer")
  /\ compute_similarity_score ascii_lower None no_msg (embed_const [1%R])
       no_shape_msg (py "  Python   developer ") (py "Flask developer  ")
       (py "en") installed
     = compute_similarity_score ascii_lower None no_msg (embed_const [1%R])
         no_shape_msg (py "Python developer") (py "Flask developer")
         (py "en") installed.
Proof.
  split; [reflexivity |]. split; [reflexivity |].
  exact (score_depends_on_tokens ascii_lower None no_msg (embed_const [1%R])
           no_shape_msg (py "  Python   developer ")
           (py "Python developer") (py "Flask developer  ")
           (py "Flask developer") (py "en") installed eq_refl eq_refl).
Defined.

(** X6.  The calls a run of [compute_similarity_score] makes to the
    embedding provider.  When a text is blank or the language is
    unsupported the run makes no outside call at all.  Otherwise its
    calls are those of the stopword lookup (none, or one download)
    followed by: nothing when the lookup raises; one call on the cleaned
    job description when that call raises; that call and then one on the
    cleaned CV text when it succeeds. *)
Theorem embedding_calls_of_a_run
    (lower : str -> str) (remote : option Corpus) (lookup_error_msg : str)
    (embed : str -> exn + vector) (shape_error_msg : nat -> nat -> str)
    (job_description cv_text language : str) (w : World) :
  (blank job_description \/ blank cv_text
   \/ ~ In language supported_codes ->
   trace (compute_similarity_score lower remote lookup_error_msg embed
            shape_error_msg job_description cv_text language w) = [])
  /\ (texts_present job_description cv_text ->
      In language supported_codes ->
      match get_stopwords remote lookup_error_msg language w with
      | (inl _, _, before) =>
          trace (compute_similarity_score lower remote lookup_error_msg
                   embed shape_error_msg job_description cv_text language w)
          = before
      | (inr stop_words, _, before) =>
          match
            embed (cleaned_text lower stop_words (split job_description))
          with
          | inl _ =>
              trace (compute_similarity_score lower remote lookup_error_msg
                       embed shape_error_msg job_description cv_text
                       language w)
              = before
                ++ [EmbedCall [cleaned_text lower stop_words
                                 (split job_description)]]
          | inr _ =>
              trace (compute_similarity_score lower remote lookup_error_msg
                       embed shape_error_msg job_description cv_text
                       language w)
              = before
                ++ [EmbedCall [cleaned_text lower stop_words
                                 (split job_description)];
                    EmbedCall [cleaned_text lower stop_words
                                 (split cv_text)]]
          end
      end)
  /\ (trace (get_stopwords remote lookup_error_msg language w) = []
      \/ trace (get_stopwords remote lookup_error_msg language w)
         = [Download (py "stopwords")]).
Proof.
  split; [| split].
  - intros H.
    destruct (score_cases lower remote lookup_error_msg embed
                shape_error_msg job_description cv_text language w)
      as [[_ E] | [[_ [_ E]] | [[Hj Hc] [Hl _]]]].
    + now rewrite E.
    + now rewrite E.
    + destruct H as [H | [H | H]]; contradiction.
  - intros Hp Hl.
    rewrite (score_run lower remote lookup_error_msg embed shape_error_msg
               job_description cv_text language w Hp
               (proj2 (dict_in_supported language) Hl)).
    destruct (get_stopwords remote lookup_error_msg language w)
      as [[[e|sw] w1] t1]; [apply trace_of |].
    unfold compare_texts.
    destruct (embed (cleaned_text lower sw (split job_description)))
      as [e|jv]; [apply trace_of |].
    destruct (embed (cleaned_text lower sw (split cv_text))) as [e|cv];
      apply trace_of.
  - apply get_stopwords_effects.
Qed.

Lemma embedding_calls_of_a_run_example :
  texts_present (py "Python developer") (py "Flask developer")
  /\ In (py "en") supported_codes
  /\ trace (compute_similarity_score ascii_lower (Some sample_corpus) no_msg
              (embed_const [1%R]) no_shape_msg (py "Python developer")
              (py "Flask developer") (py "en") not_installed)
     = [Download (py "stopwords"); EmbedCall [py "Python developer"];
        EmbedCall [py "Flask developer"]].
Proof.
  split; [exact sample_texts_present |]. split; [exact en_supported |].
  exact (proj1 (proj2
           (embedding_calls_of_a_run ascii_lower (Some sample_corpus) no_msg
              (embed_const [1%R]) no_shape_msg (py "Python developer")
              (py "Flask developer") (py "en") not_installed))
           sample_texts_present en_supported).
Defined.

(** ** language/supported_languages.py *)

Lemma dict_get_none (d : list (str * str)) (key : str) :
  dict_get d key = None <-> dict_in d key = false.
Proof.
  unfold dict_in, contains.
  induction d as [|[k v] d IH]; simpl; [tauto |].
  destruct (str_eqb key k); simpl; [split; discriminate | exact IH].
Qed.

Lemma dict_get_in (d : list (str * str)) (key value : str) :
  dict_get d key = Some value -> In (key, value) d.
Proof.
  induction d as [|[k v] d IH]; simpl; [discriminate |].
  destruct (str_eqb key k) eqn:E.
  - apply str_eqb_eq in E. intros H. inversion H. subst. now left.
  - intros H. right. now apply IH.
Qed.

Lemma language_name_none (language_code : str) :
  ~ In language_code supported_codes ->
  get_language_name language_code = None.
Proof.
  intros H. unfold get_language_name. apply dict_get_none.
  now apply dict_in_unsupported.
Qed.

Lemma language_name_truthy (language_code name : str) :
  get_language_name language_code = Some name -> truthy name = true.
Proof.
  intros Hn.
  destruct (in_dec (list_eq_dec N.eq_dec) language_code supported_codes)
    as [Hin | Hout].
  - destruct (supported_language_has_name _ Hin) as [n [Hn' Ht]]. congruence.
  - apply language_name_none in Hout. congruence.
Qed.

(** X7.  [get_language_name] and the language check of
    [compute_similarity_score] agree: the name is found exactly for the
    seven supported codes (as spelled, in lower case), it is then the
    name the table pairs with the code and is not empty; for every other
    code the result is [None]. *)
Theorem get_language_name_supported (language_code : str) :
  (In language_code supported_codes
   <-> exists name, get_language_name language_code = Some name)
  /\ (~ In language_code supported_codes
      <-> get_language_name language_code = None)
  /\ (dict_in SUPPORTED_LANGUAGES language_code = true
      <-> get_language_name language_code <> None)
  /\ (forall name,
        get_language_name language_code = Some name ->
        In (language_code, name) SUPPORTED_LANGUAGES /\ truthy name = true).
Proof.
  assert (Hnone : get_language_name language_code = None
                  <-> ~ In language_code supported_codes).
  { unfold get_language_name. rewrite dict_get_none.
    apply dict_in_unsupported. }
  assert (Hsome : In language_code supported_codes
                  <-> exists name, get_language_name language_code = Some name).
  { split.
    - intros H. destruct (supported_language_has_name _ H) as [n [Hn _]].
      now exists n.
    - intros [n Hn].
      destruct (in_dec (list_eq_dec N.eq_dec) language_code supported_codes)
        as [Hin | Hout]; [assumption |].
      apply Hnone in Hout. congruence. }
  split; [exact Hsome |]. split; [symmetry; exact Hnone |]. split.
  - rewrite dict_in_supported, Hsome. split.
    + intros [n Hn]. congruence.
    + intros H. destruct (get_language_name language_code) as [n|];
        [now exists n | congruence].
  - intros name Hn. split; [now apply dict_get_in |].
    assert (Hin : In language_code supported_codes)
      by (apply Hsome; now exists name).
    destruct (supported_language_has_name _ Hin) as [n [Hn' Ht]].
    congruence.
Qed.

(** ** app/utils/authentication/auth.py *)

(** X8.  [api_key_required] runs the function it wraps only when the
    request carries a non-empty [X-API-KEY] equal to the configured
    [API_KEY]; the outcome is then that of the function.  In every other
    case it answers 401 without running the function, without any outside
    call and without change of state.  So when [API_KEY] is not set, or is
    set to the empty string, every request is answered 401. *)
Theorem api_key_required_gate (API_KEY : option str) (T : Type) (f : M T)
    (api_key : option str) (w : World) :
  ((exists key, api_key = Some key /\ key <> [] /\ API_KEY = Some key)
   /\ api_key_required API_KEY f api_key w = (r <- f ;; ret (inr r)) w)
  \/ (~ (exists key, api_key = Some key /\ key <> [] /\ API_KEY = Some key)
      /\ (api_key_required API_KEY f api_key w
          = (inr (inl (ErrorBody (py "Missing API Key"), 401)), w, [])
          \/ api_key_required API_KEY f api_key w
             = (inr (inl (ErrorBody (py "Invalid API Key"), 401)), w, []))).
Proof.
  unfold api_key_required, differs_from_key.
  destruct api_key as [[|c key]|].
  - right. split; [| now left].
    intros [k [Hk [Hne _]]]. inversion Hk. congruence.
  - change (negb (opt_truthy (Some (c :: key)))) with false.
    cbv beta iota.
    destruct API_KEY as [k|].
    + destruct (str_eqb (c :: key) k) eqn:E; cbv beta iota delta [negb].
      * apply str_eqb_eq in E. subst k. left. split; [| reflexivity].
        exists (c :: key). split; [reflexivity |].
        split; [discriminate | reflexivity].
      * right. split; [| now right].
        intros [k' [Hk [_ Hk']]]. inversion Hk; inversion Hk'; subst.
        rewrite str_eqb_refl in E. discriminate E.
    + right. split; [| now right].
      intros [k' [_ [_ Hk']]]. discriminate Hk'.
  - right. split; [| now left].
    intros [k [Hk _]]. discriminate Hk.
Qed.

(** ** The savers *)

Lemma format_find_none (OUTPUT_DIR FONT_PATH file_id : str)
    (write_pdf : str -> str -> str -> exn + unit)
    (write_docx write_txt : str -> str -> exn + unit) (file_format : str) :
  get_format_function OUTPUT_DIR FONT_PATH file_id write_pdf write_docx
    write_txt file_format = None
  <-> ~ In file_format output_formats.
Proof.
  unfold get_format_function, FORMAT_FUNCTIONS, output_formats. simpl.
  destruct (str_eqb file_format (py "pdf")) eqn:E1;
    [apply str_eqb_eq in E1; split; [discriminate | intros H; exfalso; apply H; now left] |].
  destruct (str_eqb file_format (py "docx")) eqn:E2;
    [apply str_eqb_eq in E2; split;
       [discriminate | intros H; exfalso; apply H; right; now left] |].
  destruct (str_eqb file_format (py "txt")) eqn:E3;
    [apply str_eqb_eq in E3; split;
       [discriminate | intros H; exfalso; apply H; right; right; now left] |].
  split; [| reflexivity]. intros _ [H | [H | [H | []]]]; subst;
    rewrite str_eqb_refl in *; discriminate.
Qed.

Lemma extension_of_format (file_format : str) :
  In file_format output_formats ->
  ~ In EXTSEP file_format /\ ~ In SEP file_format.
Proof.
  intros [H | [H | [H | []]]]; subst; split; intros H; vm_compute in H;
    intuition discriminate.
Qed.

(** X9.  A cover letter saved through the function [get_format_function]
    returns for a format is written to a file of that format's
    extension: the format is one of pdf, docx and txt, and the path
    returned is [OUTPUT_DIR] joined with the file id followed by a dot and
    the format (the file id, the text of a UUID, being non-empty and
    without dot or slash). *)
Theorem saved_file_has_requested_extension
    (OUTPUT_DIR FONT_PATH file_id : str)
    (write_pdf : str -> str -> str -> exn + unit)
    (write_docx write_txt : str -> str -> exn + unit)
    (file_format cover_letter path : str) (format_function : str -> M str)
    (w w1 : World) (t1 : list event) :
  plain_name file_id ->
  get_format_function OUTPUT_DIR FONT_PATH file_id write_pdf write_docx
    write_txt file_format = Some format_function ->
  format_function cover_letter w = (inr path, w1, t1) ->
  In file_format output_formats
  /\ path = path_join OUTPUT_DIR (file_id ++ EXTSEP :: file_format)
  /\ get_file_suffix path = EXTSEP :: file_format
  /\ w1 = w /\ t1 = [].
Proof.
  intros Hid Hget Hrun.
  assert (Hin : In file_format output_formats).
  { destruct (in_dec (list_eq_dec N.eq_dec) file_format output_formats)
      as [H | H]; [assumption |].
    apply (format_find_none OUTPUT_DIR FONT_PATH file_id write_pdf
             write_docx write_txt) in H. congruence. }
  split; [assumption |].
  assert (Hpath : path = path_join OUTPUT_DIR (file_id ++ EXTSEP :: file_format)
                  /\ w1 = w /\ t1 = []).
  { unfold get_format_function, FORMAT_FUNCTIONS in Hget. simpl in Hget.
    destruct (str_eqb file_format (py "pdf")) eqn:E1.
    { apply str_eqb_eq in E1. subst. inversion Hget; subst. revert Hrun.
      unfold save_as_pdf, try_except, bind, lift, ret.
      destruct (write_pdf _ _ _) as [e|[]]; simpl; intros H; inversion H.
      auto. }
    destruct (str_eqb file_format (py "docx")) eqn:E2.
    { apply str_eqb_eq in E2. subst. inversion Hget; subst. revert Hrun.
      unfold save_as_docx, try_except, bind, lift, ret.
      destruct (write_docx _ _) as [e|[]]; simpl; intros H; inversion H.
      auto. }
    destruct (str_eqb file_format (py "txt")) eqn:E3; [| discriminate].
    apply str_eqb_eq in E3. subst. inversion Hget; subst. revert Hrun.
    unfold save_as_txt, try_except, bind, lift, ret.
    destruct (write_txt _ _) as [e|[]]; simpl; intros H; inversion H.
    auto. }
  destruct Hpath as [-> [-> ->]].
  split; [reflexivity |]. split; [| auto].
  destruct (path_join_plain OUTPUT_DIR file_id (EXTSEP :: file_format) Hid)
    as [d [Hd [Hform _]]].
  rewrite Hd. apply get_file_suffix_named; try assumption.
  right. exists file_format. split; [reflexivity |].
  now apply extension_of_format.
Qed.

Lemma sample_file_id_plain : plain_name sample_file_id.
Proof.
  split; [discriminate |].
  split; intros H; vm_compute in H; intuition discriminate.
Qed.

Lemma saved_file_has_requested_extension_example :
  plain_name sample_file_id
  /\ get_format_function sample_output_dir sample_font sample_file_id
       write_pdf_ok write_ok write_ok (py "docx")
     = Some (save_as_docx sample_output_dir sample_file_id write_ok)
  /\ save_as_docx sample_output_dir sample_file_id write_ok
       (py "Dear team") installed
     = (inr (py "/out/7c9e.docx"), installed, [])
  /\ get_file_suffix (py "/out/7c9e.docx") = py ".docx".
Proof.
  split; [exact sample_file_id_plain |]. split; [reflexivity |].
  split; [reflexivity |].
  exact (proj1 (proj2 (proj2
           (saved_file_has_requested_extension sample_output_dir sample_font
              sample_file_id write_pdf_ok write_ok write_ok (py "docx")
              (py "Dear team") (py "/out/7c9e.docx")
              (save_as_docx sample_output_dir sample_file_id write_ok)
              installed installed [] sample_file_id_plain eq_refl
              eq_refl)))).
Defined.

(** ** The OpenAI wrappers *)

Lemma chat_call_outcome (chat_completion : str -> str -> exn + str)
    (system prompt : str) (w : World) :
  chat_outcome chat_completion system prompt w
    (try_except
       (emit (ChatCompletion (py "gpt-4-turbo") system prompt) ;;;
        content <- lift (chat_completion system prompt) ;;
        ret (strip content))
       is_OpenAIError
       (fun e => raise (openai_error e)) w).
Proof.
  unfold chat_outcome, try_except, bind, emit, lift, ret, raise.
  destruct (chat_completion system prompt) as [e|content]; simpl.
  - destruct (is_OpenAIError e); simpl; auto.
  - repeat split. apply strip_strip.
Qed.

(** X10.  Each of the four OpenAI wrappers makes exactly one chat call
    (model gpt-4-turbo) and changes nothing else.  When the call succeeds
    the wrapper returns the content trimmed of surrounding whitespace
    (trimming it again changes nothing); when it raises an [OpenAIError]
    the wrapper raises [Exception("OpenAI API Error: <message>")]; any
    other exception is passed on as it is. *)
Theorem openai_wrappers_outcome (chat_completion : str -> str -> exn + str)
    (job_description cv_text language : str) (w : World) :
  chat_outcome chat_completion (cover_letter_system language)
    (cover_letter_prompt job_description language) w
    (generate_cover_letter chat_completion job_description language w)
  /\ chat_outcome chat_completion (cover_letter_system language)
       (cover_letter_with_cv_prompt job_description cv_text language) w
       (generate_cover_letter_with_cv chat_completion job_description
          cv_text language w)
  /\ chat_outcome chat_completion (interview_system language)
       (interview_prompt job_description cv_text language) w
       (generate_interview_questions chat_completion job_description
          cv_text language w)
  /\ chat_outcome chat_completion
       (py "Provide a detailed professional evaluation in " ++ language
        ++ py ".")
       (evaluation_prompt job_description cv_text language) w
       (evaluate_cv_with_openai chat_completion job_description cv_text
          language w).
Proof.
  repeat split; apply chat_call_outcome.
Qed.

Example generate_cover_letter_trims :
  result (generate_cover_letter chat_padded (py "Python developer")
            (py "English") installed) = inr (py "Dear team").
Proof. reflexivity. Qed.

Example generate_cover_letter_wraps_openai_error :
  result (generate_cover_letter chat_rate_limited (py "Python developer")
            (py "English") installed)
  = inl (mk_exn Exception (py "OpenAI API Error: rate limit")).
Proof. reflexivity. Qed.

(** ** Laws of the monad *)

Lemma bind_assoc {A B C : Type} (m : M A) (k : A -> M B) (h : B -> M C)
    (w : World) :
  bind (bind m k) h w = bind m (fun a => bind (k a) h) w.
Proof.
  unfold bind.
  destruct (m w) as [[[e|a] w1] t1]; [reflexivity |].
  destruct (k a w1) as [[[e|b] w2] t2]; [reflexivity |].
  destruct (h b w2) as [[r w3] t3]. now rewrite app_assoc.
Qed.

Lemma bind_ext {A B : Type} (m : M A) (k k' : A -> M B) (w : World) :
  (forall a w', k a w' = k' a w') -> bind m k w = bind m k' w.
Proof.
  intros H. unfold bind.
  destruct (m w) as [[[e|a] w1] t1]; [reflexivity |]. now rewrite H.
Qed.

Lemma bind_effect_free_ok {A B : Type} (m : M A) (k : A -> M B) (w : World)
    (a : A) :
  m w = (inr a, w, []) -> bind m k w = k a w.
Proof.
  intros H. unfold bind. rewrite H.
  destruct (k a w) as [[r w2] t2]. reflexivity.
Qed.

Lemma bind_fail {A B : Type} (m : M A) (k : A -> M B) (w w1 : World)
    (e : exn) (t1 : list event) :
  m w = (inl e, w1, t1) -> bind m k w = (inl e, w1, t1).
Proof. intros H. unfold bind. now rewrite H. Qed.

Lemma bind_inv {A B : Type} (m : M A) (k : A -> M B) (w w2 : World) (b : B)
    (t : list event) :
  bind m k w = (inr b, w2, t) ->
  exists a w1 t1 t2,
    m w = (inr a, w1, t1) /\ k a w1 = (inr b, w2, t2) /\ t = t1 ++ t2.
Proof.
  unfold bind.
  destruct (m w) as [[[e|a] w1] t1]; [discriminate |].
  destruct (k a w1) as [[r w3] t2] eqn:Hk.
  intros H. inversion H; subst. now exists a, w1, t1, t2.
Qed.

Lemma try_except_answer {A : Type} (m : M A) (answer : A) (w w1 : World)
    (e : exn) (t1 : list event) :
  m w = (inl e, w1, t1) ->
  try_except m is_Exception (fun _ => ret answer) w = (inr answer, w1, t1).
Proof.
  intros H. unfold try_except, is_Exception, ret. rewrite H.
  now rewrite app_nil_r.
Qed.

Lemma try_except_ok {A : Type} (m : M A) (catches : exn -> bool)
    (h : exn -> M A) (w w1 : World) (a : A) (t1 : list event) :
  m w = (inr a, w1, t1) -> try_except m catches h w = (inr a, w1, t1).
Proof. intros H. unfold try_except. now rewrite H. Qed.

Lemma effect_free_ret {A : Type} (a : A) : effect_free (ret a).
Proof. intros w. now exists (inr a). Qed.

Lemma effect_free_raise {A : Type} (e : exn) : effect_free (@raise A e).
Proof. intros w. now exists (inl e). Qed.

Lemma effect_free_lift {A : Type} (r : exn + A) : effect_free (lift r).
Proof. intros w. now exists r. Qed.

Lemma effect_free_bind {A B : Type} (m : M A) (k : A -> M B) :
  effect_free m -> (forall a, effect_free (k a)) -> effect_free (bind m k).
Proof.
  intros Hm Hk w. unfold bind.
  destruct (Hm w) as [[e|a] ->]; [now exists (inl e) |].
  destruct (Hk a w) as [r ->]. now exists r.
Qed.

(** ** Reading the uploaded CV *)

Section Upload.

Variable lower : str -> str.
Variable TEMP_DIR : str.
Variable path_exists : str -> bool.
Variable makedirs : str -> exn + unit.
Variable mkdtemp : str -> exn + str.
Variable uuid4 : str.
Variable file_save : FileStorage -> str -> exn + unit.
Variable pdf_pages : str -> exn + list (option str).
Variable docx_paragraphs : str -> exn + list str.
Variable read_utf8 : str -> exn + str.

Local Abbreviation read_upload' :=
  (read_upload lower TEMP_DIR path_exists makedirs mkdtemp uuid4 file_save
     pdf_pages docx_paragraphs read_utf8).

Lemma ensure_directory_exists_effect_free (directory : str) :
  effect_free (ensure_directory_exists path_exists makedirs directory).
Proof.
  unfold ensure_directory_exists.
  destruct (path_exists directory); simpl;
    [apply effect_free_ret | apply effect_free_lift].
Qed.

Lemma extract_text_effect_free (file_path : str) :
  effect_free
    (extract_text lower pdf_pages docx_paragraphs read_utf8 file_path).
Proof.
  unfold extract_text.
  destruct (str_eqb _ (py ".pdf")).
  { apply effect_free_bind; [apply effect_free_lift |].
    intros a. apply effect_free_ret. }
  destruct (str_eqb _ (py ".docx")).
  { apply effect_free_bind; [apply effect_free_lift |].
    intros a. apply effect_free_ret. }
  destruct (str_eqb _ (py ".txt")).
  { apply effect_free_lift. }
  apply effect_free_raise.
Qed.

Lemma read_upload_effect_free (cv_file : FileStorage) :
  effect_free (read_upload' cv_file).
Proof.
  unfold read_upload.
  apply effect_free_bind; [apply ensure_directory_exists_effect_free |].
  intros _. apply effect_free_bind; [apply effect_free_lift |].
  intros temp_dir. apply effect_free_bind.
  - unfold save_temporary_file.
    apply effect_free_bind; [apply ensure_directory_exists_effect_free |].
    intros _. apply effect_free_bind; [apply effect_free_lift |].
    intros _. apply effect_free_ret.
  - intros path. apply extract_text_effect_free.
Qed.

(** The steps inlined in an endpoint are [read_upload] followed by the
    rest of the endpoint. *)
Lemma read_upload_bind {B : Type} (cv_file : FileStorage)
    (rest : str -> M B) (w : World) :
  (ensure_directory_exists path_exists makedirs TEMP_DIR ;;;
   temp_dir <- lift (mkdtemp TEMP_DIR) ;;
   temp_file_path <-
     save_temporary_file path_exists makedirs uuid4 file_save cv_file
       temp_dir ;;
   cv_text <-
     extract_text lower pdf_pages docx_paragraphs read_utf8 temp_file_path ;;
   rest cv_text) w
  = (cv_text <- read_upload' cv_file ;; rest cv_text) w.
Proof.
  unfold read_upload. rewrite bind_assoc.
  apply bind_ext; intros _ w1. rewrite bind_assoc.
  apply bind_ext; intros temp_dir w2. rewrite bind_assoc.
  reflexivity.
Qed.

(** The text is obtained only from a file whose extension, lowercased,
    is one of the three that [extract_text] reads. *)
Lemma read_upload_success (cv_file : FileStorage) (cv_text : str)
    (w w1 : World) (t1 : list event) :
  plain_name uuid4 ->
  read_upload' cv_file w = (inr cv_text, w1, t1) ->
  In (lower (get_file_suffix (filename cv_file))) readable_suffixes.
Proof.
  intros Hu H. unfold read_upload in H.
  apply bind_inv in H as (u & wa & ta & ta' & _ & H & _).
  apply bind_inv in H as (temp_dir & wb & tb & tb' & _ & H & _).
  apply bind_inv in H as (path & wc & tc & tc' & Hsave & H & _).
  pose proof (saved_path_suffix path_exists makedirs uuid4 file_save cv_file
                temp_dir path wb wc tc Hu Hsave) as Hsuffix.
  unfold extract_text in H. rewrite Hsuffix in H.
  unfold readable_suffixes.
  destruct (str_eqb _ (py ".pdf")) eqn:E1;
    [apply str_eqb_eq in E1; rewrite E1; now left |].
  destruct (str_eqb _ (py ".docx")) eqn:E2;
    [apply str_eqb_eq in E2; rewrite E2; right; now left |].
  destruct (str_eqb _ (py ".txt")) eqn:E3;
    [apply str_eqb_eq in E3; rewrite E3; right; right; now left |].
  discriminate H.
Qed.

Lemma read_upload_unreadable (cv_file : FileStorage) (w : World) :
  plain_name uuid4 ->
  ~ In (lower (get_file_suffix (filename cv_file))) readable_suffixes ->
  exists e, read_upload' cv_file w = (inl e, w, []).
Proof.
  intros Hu Hs.
  destruct (read_upload_effect_free cv_file w) as [[e|cv_text] H];
    [now exists e |].
  exfalso. apply Hs. exact (read_upload_success _ _ _ _ _ Hu H).
Qed.

End Upload.

(** ** The upload endpoints *)

Section UploadEndpoints.

Variable lower : str -> str.
Variable remote : option Corpus.
Variable lookup_error_msg : str.
Variable embed : str -> exn + vector.
Variable shape_error_msg : nat -> nat -> str.
Variable TEMP_DIR : str.
Variable path_exists : str -> bool.
Variable makedirs : str -> exn + unit.
Variable mkdtemp : str -> exn + str.
Variable uuid4 : str.
Variable file_save : FileStorage -> str -> exn + unit.
Variable pdf_pages : str -> exn + list (option str).
Variable docx_paragraphs : str -> exn + list str.
Variable read_utf8 : str -> exn + str.
Variable chat_completion : str -> str -> exn + str.
Variable round : R -> nat -> R.
Variable OUTPUT_DIR : str.
Variable FONT_PATH : str.
Variable file_id : str.
Variable write_pdf : str -> str -> str -> exn + unit.
Variable write_docx : str -> str -> exn + unit.
Variable write_txt : str -> str -> exn + unit.
Variable abspath : str -> str.
Variable send_file : str -> exn + unit.

Local Abbreviation read_upload' :=
  (read_upload lower TEMP_DIR path_exists makedirs mkdtemp uuid4 file_save
     pdf_pages docx_paragraphs read_utf8).
Local Abbreviation evaluate_endpoint :=
  (evaluate_cv_match_endpoint lower remote lookup_error_msg embed
     shape_error_msg TEMP_DIR path_exists makedirs mkdtemp uuid4 file_save
     pdf_pages docx_paragraphs read_utf8 chat_completion round).
Local Abbreviation with_cv_endpoint :=
  (generate_cover_letter_with_cv_endpoint lower TEMP_DIR path_exists makedirs
     mkdtemp uuid4 file_save pdf_pages docx_paragraphs read_utf8
     chat_completion OUTPUT_DIR FONT_PATH file_id write_pdf write_docx
     write_txt abspath send_file).
Local Abbreviation interview_endpoint :=
  (generate_interview_questions_endpoint lower TEMP_DIR path_exists makedirs
     mkdtemp uuid4 file_save pdf_pages docx_paragraphs read_utf8
     chat_completion).

(** The three endpoints for a request that carries both inputs: the
    steps of [read_upload], then what is particular to the endpoint. *)
Lemma evaluate_endpoint_present (request : Request) (w : World)
    (cv_file : FileStorage) (job_description : str) :
  files_get (files request) (py "cv_file") = Some cv_file ->
  filename cv_file <> [] ->
  form_get request (py "job_description") = Some job_description ->
  job_description <> [] ->
  evaluate_endpoint request w
  = try_except
      (cv_text <- read_upload' cv_file ;;
       similarity_score <-
         compute_similarity_score lower remote lookup_error_msg embed
           shape_error_msg job_description cv_text
           (lower (form_get_default request (py "language") (py "en"))) ;;
       match
         get_language_name
           (lower (form_get_default request (py "language") (py "en")))
       with
       | Some language_name =>
           if negb (truthy language_name)
           then ret unsupported_language_response
           else
             evaluation <-
               evaluate_cv_with_openai chat_completion job_description
                 cv_text language_name ;;
             ret (EvaluationBody (round similarity_score 2) evaluation, 200)
       | None => ret unsupported_language_response
       end)
      is_Exception (fun _ => ret internal_error_response) w.
Proof.
  intros Hf Hname Hjd Hne.
  unfold evaluate_cv_match_endpoint, try_except.
  rewrite Hf, Hjd.
  assert (Hc : negb (file_truthy (Some cv_file))
               || negb (opt_truthy (Some job_description)) = false).
  { simpl. destruct (filename cv_file); [congruence |].
    destruct job_description; [congruence | reflexivity]. }
  rewrite Hc. now rewrite read_upload_bind.
Qed.

Lemma with_cv_endpoint_present (request : Request) (w : World)
    (cv_file : FileStorage) (job_description : str) :
  files_get (files request) (py "cv_file") = Some cv_file ->
  filename cv_file <> [] ->
  form_get request (py "job_description") = Some job_description ->
  job_description <> [] ->
  with_cv_endpoint request w
  = try_except
      (cv_text <- read_upload' cv_file ;;
       match
         get_language_name
           (lower (form_get_default request (py "language") (py "en")))
       with
       | Some language_name =>
           if negb (truthy language_name)
           then ret unsupported_language_reply
           else
             cover_letter <-
               generate_cover_letter_with_cv chat_completion job_description
                 cv_text language_name ;;
             match
               get_format_function OUTPUT_DIR FONT_PATH file_id write_pdf
                 write_docx write_txt
                 (lower (form_get_default request (py "file_format") []))
             with
             | None => ret invalid_format_reply
             | Some format_function =>
                 file_path <- format_function cover_letter ;;
                 lift (send_file (abspath file_path)) ;;;
                 ret (SendFile (abspath file_path))
             end
       | None => ret unsupported_language_reply
       end)
      is_Exception (fun _ => ret internal_error_reply) w.
Proof.
  intros Hf Hname Hjd Hne.
  unfold generate_cover_letter_with_cv_endpoint, try_except.
  rewrite Hf, Hjd.
  assert (Hc : negb (file_truthy (Some cv_file))
               || negb (opt_truthy (Some job_description)) = false).
  { simpl. destruct (filename cv_file); [congruence |].
    destruct job_description; [congruence | reflexivity]. }
  rewrite Hc. now rewrite read_upload_bind.
Qed.

Lemma interview_endpoint_present (request : Request) (w : World)
    (cv_file : FileStorage) (job_description : str) :
  files_get (files request) (py "cv_file") = Some cv_file ->
  filename cv_file <> [] ->
  form_get request (py "job_description") = Some job_description ->
  job_description <> [] ->
  interview_endpoint request w
  = try_except
      (cv_text <- read_upload' cv_file ;;
       match
         get_language_name
           (lower (form_get_default request (py "language") (py "en")))
       with
       | Some language_name =>
           if negb (truthy language_name)
           then ret unsupported_language_reply
           else
             interview_qa <-
               generate_interview_questions chat_completion job_description
                 cv_text language_name ;;
             ret (Jsonify [(py "interview_qa", interview_qa)] 200)
       | None => ret unsupported_language_reply
       end)
      is_Exception (fun _ => ret internal_error_reply) w.
Proof.
  intros Hf Hname Hjd Hne.
  unfold generate_interview_questions_endpoint, try_except.
  rewrite Hf, Hjd.
  assert (Hc : negb (file_truthy (Some cv_file))
               || negb (opt_truthy (Some job_description)) = false).
  { simpl. destruct (filename cv_file); [congruence |].
    destruct job_description; [congruence | reflexivity]. }
  rewrite Hc. now rewrite read_upload_bind.
Qed.

(** X11.  An uploaded CV whose file name has, lowercased, an extension
    other than .pdf, .docx and .txt (or none) is answered by each of the
    three upload endpoints with the generic 500 response, not with a 4xx;
    no embedding or chat call is made and the state is unchanged. *)
Theorem unreadable_upload_is_internal_error (request : Request) (w : World)
    (cv_file : FileStorage) (job_description : str) :
  plain_name uuid4 ->
  files_get (files request) (py "cv_file") = Some cv_file ->
  filename cv_file <> [] ->
  form_get request (py "job_description") = Some job_description ->
  job_description <> [] ->
  ~ In (lower (get_file_suffix (filename cv_file))) readable_suffixes ->
  evaluate_endpoint request w = (inr internal_error_response, w, [])
  /\ with_cv_endpoint request w = (inr internal_error_reply, w, [])
  /\ interview_endpoint request w = (inr internal_error_reply, w, []).
Proof.
  intros Hu Hf Hname Hjd Hne Hs.
  destruct (read_upload_unreadable lower TEMP_DIR path_exists makedirs
              mkdtemp uuid4 file_save pdf_pages docx_paragraphs read_utf8
              cv_file w Hu Hs) as [e He].
  split; [| split].
  - rewrite (evaluate_endpoint_present request w cv_file job_description)
      by assumption.
    apply try_except_answer with (e := e). now apply bind_fail.
  - rewrite (with_cv_endpoint_present request w cv_file job_description)
      by assumption.
    apply try_except_answer with (e := e). now apply bind_fail.
  - rewrite (interview_endpoint_present request w cv_file job_description)
      by assumption.
    apply try_except_answer with (e := e). now apply bind_fail.
Qed.

(** X12.  In [/generate_cover_letter_with_cv] the file format is looked
    up only after the cover letter has been generated: for a request with
    both inputs, a readable CV and a supported language but a format other
    than pdf, docx and txt, the chat call is made (here it succeeds) and
    the answer is then the 400 "Invalid file format" response. *)
Theorem with_cv_checks_format_after_generation (request : Request)
    (w : World) (cv_file : FileStorage)
    (job_description cv_text language_name content : str) :
  files_get (files request) (py "cv_file") = Some cv_file ->
  filename cv_file <> [] ->
  form_get request (py "job_description") = Some job_description ->
  job_description <> [] ->
  read_upload' cv_file w = (inr cv_text, w, []) ->
  get_language_name
    (lower (form_get_default request (py "language") (py "en")))
  = Some language_name ->
  chat_completion (cover_letter_system language_name)
    (cover_letter_with_cv_prompt job_description cv_text language_name)
  = inr content ->
  ~ In (lower (form_get_default request (py "file_format") []))
       output_formats ->
  with_cv_endpoint request w
  = (inr invalid_format_reply, w,
     [ChatCompletion (py "gpt-4-turbo") (cover_letter_system language_name)
        (cover_letter_with_cv_prompt job_description cv_text
           language_name)]).
Proof.
  intros Hf Hname Hjd Hne Hread Hlang Hchat Hfmt.
  rewrite (with_cv_endpoint_present request w cv_file job_description)
    by assumption.
  apply try_except_ok.
  rewrite (bind_effect_free_ok _ _ w cv_text Hread).
  rewrite Hlang.
  rewrite (language_name_truthy _ _ Hlang). cbv beta iota delta [negb].
  apply (format_find_none OUTPUT_DIR FONT_PATH file_id write_pdf write_docx
           write_txt) in Hfmt.
  rewrite Hfmt.
  unfold generate_cover_letter_with_cv, try_except, bind, emit, lift, ret.
  rewrite Hchat. reflexivity.
Qed.

(** X13.  In [/generate_cover_letter_with_cv] and
    [/generate_interview_questions] the language is looked up right after
    the CV has been read: for a request with both inputs and a readable
    CV, an unsupported (lowercased) language code is answered with the
    400 "Unsupported language" response, and no chat call is made. *)
Theorem upload_endpoints_reject_unsupported_language (request : Request)
    (w : World) (cv_file : FileStorage) (job_description cv_text : str) :
  files_get (files request) (py "cv_file") = Some cv_file ->
  filename cv_file <> [] ->
  form_get request (py "job_description") = Some job_description ->
  job_description <> [] ->
  read_upload' cv_file w = (inr cv_text, w, []) ->
  ~ In (lower (form_get_default request (py "language") (py "en")))
       supported_codes ->
  with_cv_endpoint request w = (inr unsupported_language_reply, w, [])
  /\ interview_endpoint request w = (inr unsupported_language_reply, w, []).
Proof.
  intros Hf Hname Hjd Hne Hread Hlang.
  apply language_name_none in Hlang.
  split.
  - rewrite (with_cv_endpoint_present request w cv_file job_description)
      by assumption.
    apply try_except_ok.
    rewrite (bind_effect_free_ok _ _ w cv_text Hread).
    now rewrite Hlang.
  - rewrite (interview_endpoint_present request w cv_file job_description)
      by assumption.
    apply try_except_ok.
    rewrite (bind_effect_free_ok _ _ w cv_text Hread).
    now rewrite Hlang.
Qed.

(** X14.  [/evaluate_cv_match] answers a job description that is not
    empty but all whitespace, and likewise a CV from which only
    whitespace (or nothing) could be extracted, with the generic 500
    response: the presence check lets them through and
    [compute_similarity_score] raises.  No embedding or chat call is
    made. *)
Theorem evaluate_blank_text_is_internal_error (request : Request)
    (w : World) (cv_file : FileStorage) (job_description : str) :
  files_get (files request) (py "cv_file") = Some cv_file ->
  filename cv_file <> [] ->
  form_get request (py "job_description") = Some job_description ->
  job_description <> [] ->
  (blank job_description
   \/ exists cv_text,
        read_upload' cv_file w = (inr cv_text, w, []) /\ blank cv_text) ->
  evaluate_endpoint request w = (inr internal_error_response, w, []).
Proof.
  intros Hf Hname Hjd Hne Hblank.
  rewrite (evaluate_endpoint_present request w cv_file job_description)
    by assumption.
  destruct (read_upload_effect_free lower TEMP_DIR path_exists makedirs
              mkdtemp uuid4 file_save pdf_pages docx_paragraphs read_utf8
              cv_file w) as [[e|cv_text] Hread].
  - apply try_except_answer with (e := e). now apply bind_fail.
  - apply try_except_answer with (e := empty_text_error).
    rewrite (bind_effect_free_ok _ _ w cv_text Hread).
    apply bind_fail. apply score_blank.
    destruct Hblank as [H | [cv_text' [Hread' H]]]; [now left |].
    right. rewrite Hread in Hread'. inversion Hread'. now subst.
Qed.

End UploadEndpoints.

Lemma png_unreadable :
  ~ In (ascii_lower (get_file_suffix (py "photo.PNG"))) readable_suffixes.
Proof. intros H. vm_compute in H. intuition discriminate. Qed.

Lemma name_not_empty (c : ascii) (s : string) : py (String c s) <> [].
Proof. discriminate. Qed.

Lemma unreadable_upload_is_internal_error_example :
  plain_name sample_uuid
  /\ ~ In (ascii_lower (get_file_suffix (py "photo.PNG"))) readable_suffixes
  /\ generate_interview_questions_endpoint ascii_lower sample_dir
       always_exists makedirs_ok mkdtemp_ok sample_uuid save_ok no_pages
       no_paragraphs read_cv chat_ok
       (upload_request (py "photo.PNG") (py "Python developer") (py "en")
          (py "pdf")) installed
     = (inr internal_error_reply, installed, []).
Proof.
  split; [exact sample_uuid_plain |]. split; [exact png_unreadable |].
  exact (proj2 (proj2
           (unreadable_upload_is_internal_error ascii_lower None no_msg
              (embed_const [1%R]) no_shape_msg sample_dir always_exists
              makedirs_ok mkdtemp_ok sample_uuid save_ok no_pages
              no_paragraphs read_cv chat_ok round_id sample_output_dir
              sample_font sample_file_id write_pdf_ok write_ok write_ok
              abspath_id send_ok
              (upload_request (py "photo.PNG") (py "Python developer")
                 (py "en") (py "pdf"))
              installed (mk_file (py "photo.PNG") [])
              (py "Python developer") sample_uuid_plain eq_refl
              (name_not_empty _ _) eq_refl (name_not_empty _ _)
              png_unreadable))).
Defined.

Lemma odt_not_a_format : ~ In (ascii_lower (py "ODT")) output_formats.
Proof. intros H. vm_compute in H. intuition discriminate. Qed.

Lemma with_cv_checks_format_after_generation_example :
  ~ In (ascii_lower (py "ODT")) output_formats
  /\ generate_cover_letter_with_cv_endpoint ascii_lower sample_dir
       always_exists makedirs_ok mkdtemp_ok sample_uuid save_ok no_pages
       no_paragraphs read_cv chat_ok sample_output_dir sample_font
       sample_file_id write_pdf_ok write_ok write_ok abspath_id send_ok
       (upload_request (py "cv.txt") (py "Python developer") (py "en")
          (py "ODT")) installed
     = (inr invalid_format_reply, installed,
        [ChatCompletion (py "gpt-4-turbo") (cover_letter_system (py "English"))
           (cover_letter_with_cv_prompt (py "Python developer")
              (py "Flask developer") (py "English"))]).
Proof.
  split; [exact odt_not_a_format |].
  exact (with_cv_checks_format_after_generation ascii_lower sample_dir
           always_exists makedirs_ok mkdtemp_ok sample_uuid save_ok no_pages
           no_paragraphs read_cv chat_ok sample_output_dir sample_font
           sample_file_id write_pdf_ok write_ok write_ok abspath_id send_ok
           (upload_request (py "cv.txt") (py "Python developer") (py "en")
              (py "ODT"))
           installed (mk_file (py "cv.txt") []) (py "Python developer")
           (py "Flask developer") (py "English") (py "Good match.")
           eq_refl (name_not_empty _ _) eq_refl (name_not_empty _ _)
           eq_refl eq_refl eq_refl odt_not_a_format).
Defined.

Lemma upload_endpoints_reject_unsupported_language_example :
  ~ In (ascii_lower (py "XX")) supported_codes
  /\ generate_interview_questions_endpoint ascii_lower sample_dir
       always_exists makedirs_ok mkdtemp_ok sample_uuid save_ok no_pages
       no_paragraphs read_cv chat_ok
       (upload_request (py "cv.txt") (py "Python developer") (py "XX")
          (py "pdf")) installed
     = (inr unsupported_language_reply, installed, []).
Proof.
  assert (Hl : ~ In (ascii_lower (py "XX")) supported_codes).
  { apply dict_in_unsupported. reflexivity. }
  split; [exact Hl |].
  exact (proj2
           (upload_endpoints_reject_unsupported_language ascii_lower
              sample_dir always_exists makedirs_ok mkdtemp_ok sample_uuid
              save_ok no_pages no_paragraphs read_cv chat_ok
              sample_output_dir sample_font sample_file_id write_pdf_ok
              write_ok write_ok abspath_id send_ok
              (upload_request (py "cv.txt") (py "Python developer")
                 (py "XX") (py "pdf"))
              installed (mk_file (py "cv.txt") []) (py "Python developer")
              (py "Flask developer")
              eq_refl (name_not_empty _ _) eq_refl (name_not_empty _ _)
              eq_refl Hl)).
Defined.

Lemma spaces_blank : blank (py "   ").
Proof. repeat constructor. Qed.

Lemma evaluate_blank_text_is_internal_error_example :
  blank (py "   ")
  /\ evaluate_cv_match_endpoint ascii_lower None no_msg (embed_const [1%R])
       no_shape_msg sample_dir always_exists makedirs_ok mkdtemp_ok
       sample_uuid save_ok no_pages no_paragraphs read_cv chat_ok round_id
       (upload_request (py "cv.txt") (py "   ") (py "en") (py "pdf"))
       installed
     = (inr internal_error_response, installed, []).
Proof.
  split; [exact spaces_blank |].
  exact (evaluate_blank_text_is_internal_error ascii_lower None no_msg
           (embed_const [1%R]) no_shape_msg sample_dir always_exists
           makedirs_ok mkdtemp_ok sample_uuid save_ok no_pages no_paragraphs
           read_cv chat_ok round_id
           (upload_request (py "cv.txt") (py "   ") (py "en") (py "pdf"))
           installed (mk_file (py "cv.txt") []) (py "   ")
           eq_refl (name_not_empty _ _) eq_refl (name_not_empty _ _)
           (or_introl spaces_blank)).
Defined.

(** ** [/generate_cover_letter] *)

Lemma effect_free_try_except {A : Type} (m : M A) (catches : exn -> bool)
    (h : exn -> M A) :
  effect_free m -> (forall e, effect_free (h e)) ->
  effect_free (try_except m catches h).
Proof.
  intros Hm Hh w. unfold try_except.
  destruct (Hm w) as [[e|a] ->]; [| now exists (inr a)].
  destruct (catches e); [| now exists (inl e)].
  destruct (Hh e w) as [r ->]. now exists r.
Qed.

Lemma trace_try_except_answer {A : Type} (m : M A) (answer : A) (w : World) :
  trace (try_except m is_Exception (fun _ => ret answer) w) = trace (m w).
Proof.
  unfold try_except, is_Exception, ret, trace.
  destruct (m w) as [[[e|a] w1] t1]; simpl; [apply app_nil_r | reflexivity].
Qed.

Section JsonEndpoint.

Variable lower : str -> str.
Variable chat_completion : str -> str -> exn + str.
Variable OUTPUT_DIR : str.
Variable FONT_PATH : str.
Variable file_id : str.
Variable write_pdf : str -> str -> str -> exn + unit.
Variable write_docx : str -> str -> exn + unit.
Variable write_txt : str -> str -> exn + unit.
Variable abspath : str -> str.
Variable send_file : str -> exn + unit.
Variable attribute_error_msg : jvalue -> str -> str.

Local Abbreviation format_function_for :=
  (get_format_function OUTPUT_DIR FONT_PATH file_id write_pdf write_docx
     write_txt).
Local Abbreviation cover_letter_endpoint :=
  (generate_cover_letter_endpoint lower chat_completion OUTPUT_DIR FONT_PATH
     file_id write_pdf write_docx write_txt abspath send_file
     attribute_error_msg).

Lemma saver_effect_free (file_format cover_letter : str)
    (format_function : str -> M str) :
  format_function_for file_format = Some format_function ->
  effect_free (format_function cover_letter).
Proof.
  unfold get_format_function, FORMAT_FUNCTIONS. simpl.
  destruct (str_eqb file_format (py "pdf"));
    [| destruct (str_eqb file_format (py "docx"));
       [| destruct (str_eqb file_format (py "txt")); [| discriminate]]];
    intros H; inversion H; subst;
    (apply effect_free_try_except;
     [apply effect_free_bind;
        [apply effect_free_lift | intros _; apply effect_free_ret]
     | intros e; apply effect_free_raise]).
Qed.

(** The chat call and what follows it in [/generate_cover_letter]: one
    call in the trace, whatever the saver and the sending do. *)
Lemma cover_letter_tail_trace (job_description language_name file_format : str)
    (format_function : str -> M str) (w : World) :
  format_function_for file_format = Some format_function ->
  trace
    ((cover_letter <-
        generate_cover_letter chat_completion job_description
          language_name ;;
      file_path <- format_function cover_letter ;;
      lift (send_file (abspath file_path)) ;;;
      ret (SendFile (abspath file_path))) w)
  = [ChatCompletion (py "gpt-4-turbo") (cover_letter_system language_name)
       (cover_letter_prompt job_description language_name)].
Proof.
  intros Hff.
  destruct (chat_call_outcome chat_completion
              (cover_letter_system language_name)
              (cover_letter_prompt job_description language_name) w)
    as [Ht [Hw _]].
  fold (generate_cover_letter chat_completion job_description language_name w)
    in Ht, Hw.
  unfold bind at 1.
  destruct (generate_cover_letter chat_completion job_description
              language_name w) as [[[e|cover_letter] w1] t1];
    rewrite trace_of in Ht; rewrite world_after_of in Hw; subst w1 t1;
    [reflexivity |].
  assert (Hrest : effect_free
                    (file_path <- format_function cover_letter ;;
                     lift (send_file (abspath file_path)) ;;;
                     ret (SendFile (abspath file_path)))).
  { apply effect_free_bind; [now apply (saver_effect_free file_format) |].
    intros p. apply effect_free_bind;
      [apply effect_free_lift | intros _; apply effect_free_ret]. }
  destruct (Hrest w) as [r Hr]. rewrite Hr. reflexivity.
Qed.

(** A request that passes every check makes the one chat call. *)
Lemma cover_letter_valid_request_trace (request : JsonRequest) (w : World)
    (data : list (str * jvalue))
    (job_description file_format language language_name : str) :
  is_json request = true ->
  json_data request = inr data ->
  json_get data (py "job_description") = JString job_description ->
  ~ blank job_description ->
  json_get_default data (py "file_format") (JString []) = JString file_format ->
  In (lower file_format) output_formats ->
  json_get_default data (py "language") (JString (py "en"))
  = JString language ->
  get_language_name (lower language) = Some language_name ->
  trace (cover_letter_endpoint request w)
  = [ChatCompletion (py "gpt-4-turbo") (cover_letter_system language_name)
       (cover_letter_prompt job_description language_name)].
Proof.
  intros Hj Hd Hjd Hblank Hfmt Hin Hlang Hname.
  unfold generate_cover_letter_endpoint.
  rewrite trace_try_except_answer.
  rewrite Hj, Hd. cbn [negb].
  rewrite (bind_effect_free_ok _ _ w data eq_refl).
  rewrite Hfmt. unfold json_lower at 1.
  rewrite (bind_effect_free_ok _ _ w (lower file_format) eq_refl).
  rewrite Hlang. unfold json_lower.
  rewrite (bind_effect_free_ok _ _ w (lower language) eq_refl).
  rewrite Hjd.
  assert (Hc : negb (truthy job_description)
               || negb (truthy (strip job_description)) = false).
  { apply orb_false_iff. split.
    - destruct job_description; [| reflexivity].
      exfalso. apply Hblank. constructor.
    - apply not_true_is_false. now rewrite not_truthy_strip. }
  rewrite Hc.
  destruct (format_function_for (lower file_format))
    as [format_function|] eqn:Hff.
  - rewrite Hname, (language_name_truthy _ _ Hname). cbn [negb].
    now apply (cover_letter_tail_trace _ _ (lower file_format)).
  - exfalso.
    apply (format_find_none OUTPUT_DIR FONT_PATH file_id write_pdf
             write_docx write_txt) in Hff. contradiction.
Qed.

(** A request that makes a chat call passed every check. *)
Lemma cover_letter_trace_cases (request : JsonRequest)
    (w : World) :
  trace (cover_letter_endpoint request w) = []
  \/ exists data job_description file_format language language_name,
       is_json request = true
       /\ json_data request = inr data
       /\ json_get data (py "job_description") = JString job_description
       /\ ~ blank job_description
       /\ json_get_default data (py "file_format") (JString [])
          = JString file_format
       /\ In (lower file_format) output_formats
       /\ json_get_default data (py "language") (JString (py "en"))
          = JString language
       /\ get_language_name (lower language) = Some language_name
       /\ In (lower language) supported_codes
       /\ trace (cover_letter_endpoint request w)
          = [ChatCompletion (py "gpt-4-turbo")
               (cover_letter_system language_name)
               (cover_letter_prompt job_description language_name)].
Proof.
  remember (trace (cover_letter_endpoint request w)) as T eqn:HT.
  unfold generate_cover_letter_endpoint in HT.
  rewrite trace_try_except_answer in HT.
  destruct (is_json request) eqn:Hj; [| now left].
  cbn [negb] in HT.
  destruct (json_data request) as [e|data] eqn:Hd;
    [left; now rewrite (bind_fail _ _ w w e []) in HT |].
  rewrite (bind_effect_free_ok _ _ w data eq_refl) in HT.
  destruct (json_get_default data (py "file_format") (JString []))
    as [|file_format|b1] eqn:Hfmt;
    try (left; unfold json_lower in HT;
         now rewrite (bind_fail _ _ w w _ [] eq_refl) in HT).
  unfold json_lower at 1 in HT.
  rewrite (bind_effect_free_ok _ _ w (lower file_format) eq_refl) in HT.
  destruct (json_get_default data (py "language") (JString (py "en")))
    as [|language|b2] eqn:Hlang;
    try (left; unfold json_lower in HT;
         now rewrite (bind_fail _ _ w w _ [] eq_refl) in HT).
  unfold json_lower in HT.
  rewrite (bind_effect_free_ok _ _ w (lower language) eq_refl) in HT.
  destruct (json_get data (py "job_description"))
    as [|job_description|[|]] eqn:Hjd; try (now left).
  destruct (negb (truthy job_description)
            || negb (truthy (strip job_description))) eqn:Hblank;
    [now left |].
  destruct (format_function_for (lower file_format))
    as [format_function|] eqn:Hff; [| now left].
  destruct (get_language_name (lower language)) as [language_name|] eqn:Hname;
    [| now left].
  rewrite (language_name_truthy _ _ Hname) in HT. cbn [negb] in HT.
  right. exists data, job_description, file_format, language, language_name.
  split; [reflexivity |]. split; [reflexivity |]. split; [assumption |].
  split.
  { intros Hb. apply orb_false_iff in Hblank as [_ Hs].
    apply not_truthy_strip in Hb. congruence. }
  split; [assumption |]. split.
  { destruct (in_dec (list_eq_dec N.eq_dec) (lower file_format)
                output_formats) as [H | H]; [assumption |].
    apply (format_find_none OUTPUT_DIR FONT_PATH file_id write_pdf
             write_docx write_txt) in H. congruence. }
  split; [assumption |]. split; [assumption |]. split.
  { destruct (in_dec (list_eq_dec N.eq_dec) (lower language) supported_codes)
      as [H | H]; [assumption |].
    apply language_name_none in H. congruence. }
  destruct (chat_call_outcome chat_completion
              (cover_letter_system language_name)
              (cover_letter_prompt job_description language_name) w)
    as [Ht [Hw _]].
  fold (generate_cover_letter chat_completion job_description language_name w)
    in Ht, Hw.
  unfold bind at 1 in HT.
  destruct (generate_cover_letter chat_completion job_description
              language_name w) as [[[e|cover_letter] w1] t1];
    rewrite trace_of in Ht; rewrite world_after_of in Hw; subst w1 t1;
    [exact HT |].
  assert (Hrest : effect_free
                    (file_path <- format_function cover_letter ;;
                     lift (send_file (abspath file_path)) ;;;
                     ret (SendFile (abspath file_path)))).
  { apply effect_free_bind;
      [now apply (saver_effect_free (lower file_format)) |].
    intros p. apply effect_free_bind;
      [apply effect_free_lift | intros _; apply effect_free_ret]. }
  destruct (Hrest w) as [r Hr]. rewrite Hr in HT. exact HT.
Qed.

(** X15.  [/generate_cover_letter] makes its chat call exactly for the
    requests that pass every check: a JSON body that is an object, a job
    description that is a non-blank string, a file format that is a string
    and, lowercased, one of pdf, docx and txt, and a language that is a
    string and, lowercased, a supported code.  Such a request makes
    exactly one chat call, with the messages built from its job
    description and the name of its language; every other request makes
    none. *)
Theorem cover_letter_chat_call_needs_valid_request (request : JsonRequest)
    (w : World) :
  (forall data job_description file_format language language_name,
     is_json request = true ->
     json_data request = inr data ->
     json_get data (py "job_description") = JString job_description ->
     ~ blank job_description ->
     json_get_default data (py "file_format") (JString [])
     = JString file_format ->
     In (lower file_format) output_formats ->
     json_get_default data (py "language") (JString (py "en"))
     = JString language ->
     get_language_name (lower language) = Some language_name ->
     trace (cover_letter_endpoint request w)
     = [ChatCompletion (py "gpt-4-turbo") (cover_letter_system language_name)
          (cover_letter_prompt job_description language_name)])
  /\ (trace (cover_letter_endpoint request w) <> [] ->
      exists data job_description file_format language language_name,
        is_json request = true
        /\ json_data request = inr data
        /\ json_get data (py "job_description") = JString job_description
        /\ ~ blank job_description
        /\ json_get_default data (py "file_format") (JString [])
           = JString file_format
        /\ In (lower file_format) output_formats
        /\ json_get_default data (py "language") (JString (py "en"))
           = JString language
        /\ get_language_name (lower language) = Some language_name
        /\ In (lower language) supported_codes
        /\ trace (cover_letter_endpoint request w)
           = [ChatCompletion (py "gpt-4-turbo")
                (cover_letter_system language_name)
                (cover_letter_prompt job_description language_name)]).
Proof.
  split.
  - intros data job_description file_format language language_name.
    apply cover_letter_valid_request_trace.
  - intros Hne.
    destruct (cover_letter_trace_cases request w) as [H | H];
      [contradiction | exact H].
Qed.

(** X16.  [/generate_cover_letter] answers with the generic 500 response,
    before it looks at the job description, a JSON request whose body is
    not an object or in which [file_format] or [language] is present but
    is not a string; no chat call is made. *)
Theorem cover_letter_non_string_field_is_internal_error
    (request : JsonRequest) (w : World) :
  is_json request = true ->
  ((exists e, json_data request = inl e)
   \/ exists data,
        json_data request = inr data
        /\ ((forall s, json_get_default data (py "file_format") (JString [])
                       <> JString s)
            \/ (forall s, json_get_default data (py "language")
                            (JString (py "en")) <> JString s))) ->
  cover_letter_endpoint request w = (inr internal_error_reply, w, []).
Proof.
  intros Hj H. unfold generate_cover_letter_endpoint.
  rewrite Hj. cbn [negb].
  match goal with
  | |- try_except ?body _ _ w = _ =>
      assert (Hbody : exists e, body w = (inl e, w, []))
  end.
  { destruct H as [[e He] | [data [Hd H]]].
    - exists e. rewrite He. apply bind_fail; reflexivity.
    - rewrite Hd. rewrite (bind_effect_free_ok _ _ w data eq_refl).
      destruct (json_get_default data (py "file_format") (JString []))
        as [|file_format|b1] eqn:Hfmt.
      + eexists. apply bind_fail; reflexivity.
      + destruct H as [H | H]; [exfalso; exact (H file_format eq_refl) |].
        unfold json_lower at 1.
        rewrite (bind_effect_free_ok _ _ w (lower file_format) eq_refl).
        destruct (json_get_default data (py "language") (JString (py "en")))
          as [|language|b2] eqn:Hlang.
        * eexists. apply bind_fail; reflexivity.
        * exfalso; exact (H language eq_refl).
        * eexists. apply bind_fail; reflexivity.
      + eexists. apply bind_fail; reflexivity. }
  destruct Hbody as [e He].
  now apply try_except_answer with (e := e).
Qed.

End JsonEndpoint.

Lemma cover_letter_non_string_field_is_internal_error_example :
  generate_cover_letter_endpoint ascii_lower chat_ok sample_output_dir
    sample_font sample_file_id write_pdf_ok write_ok write_ok abspath_id
    send_ok no_attribute_msg
    (mk_json_request true
       (inr [(py "file_format", JNull)])) installed
  = (inr internal_error_reply, installed, []).
Proof.
  apply (cover_letter_non_string_field_is_internal_error ascii_lower chat_ok
           sample_output_dir sample_font sample_file_id write_pdf_ok
           write_ok write_ok abspath_id send_ok no_attribute_msg
           (mk_json_request true (inr [(py "file_format", JNull)]))
           installed eq_refl).
  right. exists [(py "file_format", JNull)].
  split; [reflexivity |]. left. intros s H. discriminate H.
Defined.

(** A valid request is served: one chat call, the letter saved as a text
    file and sent. *)
Example cover_letter_is_sent :
  generate_cover_letter_endpoint ascii_lower chat_padded sample_output_dir
    sample_font sample_file_id write_pdf_ok write_ok write_ok abspath_id
    send_ok no_attribute_msg
    (mk_json_request true
       (inr [(py "job_description", JString (py "Python developer"));
             (py "file_format", JString (py "TXT"));
             (py "language", JString (py "De"))])) installed
  = (inr (SendFile (py "/out/7c9e.txt")), installed,
     [ChatCompletion (py "gpt-4-turbo") (cover_letter_system (py "German"))
        (cover_letter_prompt (py "Python developer") (py "German"))]).
Proof. reflexivity. Qed.

(** The message of the 400 for an unsupported language is the same in
    the four endpoints, whether built from the table or written out. *)
Example unsupported_language_message :
  error_reply
    (py "Unsupported language. Choose from "
     ++ repr_list (map fst SUPPORTED_LANGUAGES) ++ py ".") 400
  = unsupported_language_reply.
Proof. reflexivity. Qed.

Lemma developer_text_present : ~ blank (py "Python developer").
Proof. exact (proj1 sample_texts_present). Qed.

Lemma txt_is_a_format : In (ascii_lower (py "TXT")) output_formats.
Proof. right. right. left. reflexivity. Qed.

Lemma cover_letter_chat_call_needs_valid_request_example :
  ~ blank (py "Python developer")
  /\ In (ascii_lower (py "TXT")) output_formats
  /\ get_language_name (ascii_lower (py "De")) = Some (py "German")
  /\ trace (generate_cover_letter_endpoint ascii_lower chat_padded
              sample_output_dir sample_font sample_file_id write_pdf_ok
              write_ok write_ok abspath_id send_ok no_attribute_msg
              (mk_json_request true
                 (inr [(py "job_description",
                        JString (py "Python developer"));
                       (py "file_format", JString (py "TXT"));
                       (py "language", JString (py "De"))])) installed)
     = [ChatCompletion (py "gpt-4-turbo") (cover_letter_system (py "German"))
          (cover_letter_prompt (py "Python developer") (py "German"))].
Proof.
  split; [exact developer_text_present |]. split; [exact txt_is_a_format |].
  split; [reflexivity |].
  exact (proj1
           (cover_letter_chat_call_needs_valid_request ascii_lower
              chat_padded sample_output_dir sample_font sample_file_id
              write_pdf_ok write_ok write_ok abspath_id send_ok
              no_attribute_msg
              (mk_json_request true
                 (inr [(py "job_description",
                        JString (py "Python developer"));
                       (py "file_format", JString (py "TXT"));
                       (py "language", JString (py "De"))])) installed)
           _ (py "Python developer") (py "TXT") (py "De") (py "German")
           eq_refl eq_refl eq_refl developer_text_present eq_refl
           txt_is_a_format eq_refl eq_refl).
Defined.
